(** * ChessPredictor: position store, action validation and engine queries

    A shallow embedding of [chess_predictor.py] (class [ChessPredictor]),
    [functional_chessboard.py] (class [ChessGUI]), [eval.py] and the
    constants of [config.py].

    The program rests on two external libraries that are not part of the
    repository: python-chess (the rules library) and the stockfish
    wrapper (the oracle).  Their board container is modelled concretely
    (a finite map from squares to pieces, with the move stack that
    [push]/[pop] maintain); what needs chess knowledge (legal moves, the
    effect of a move on a position, FEN text, game-end tests, the engine's
    answers) is taken as an interface. *)

From Stdlib Require Import ZArith QArith Sorted.
From stdpp Require Import gmap strings pretty list fin_maps.

Local Open Scope Z_scope.

(** ** python-chess data *)

(** [chess.WHITE = True], [chess.BLACK = False]. *)
Inductive Color := WHITE | BLACK.

(** [chess.PAWN .. chess.KING] (1..6 in the library). *)
Inductive PieceType := PAWN | KNIGHT | BISHOP | ROOK | QUEEN | KING.

#[global] Instance Color_eq_dec : EqDecision Color.
Proof. solve_decision. Defined.

#[global] Instance PieceType_eq_dec : EqDecision PieceType.
Proof. solve_decision. Defined.

Record Piece := mkPiece { piece_type : PieceType; color : Color }.

#[global] Instance Piece_eq_dec : EqDecision Piece.
Proof. solve_decision. Defined.

(** Squares are the library's integers 0..63 ([a1 = 0], [h8 = 63]). *)
Definition Square := Z.

(** [chess.square(file_index, rank_index)]. *)
Definition square (file rank : Z) : Square := rank * 8 + file.

(** [chess.Move(from_square, to_square, promotion=None)]. *)
Record Move := mkMove {
  from_square : Square;
  to_square : Square;
  promotion : option PieceType
}.

#[global] Instance Move_eq_dec : EqDecision Move.
Proof. solve_decision. Defined.

(** [chess.Move(a, b)] as the program builds it: no promotion piece. *)
Definition chess_Move (a b : Square) : Move := mkMove a b None.

(** The part of a [chess.Board] that describes one position. *)
Record Position := mkPosition {
  pieces_map : gmap Z Piece;
  turn : Color;
  castling_KQkq : bool * bool * bool * bool;
  ep_square : option Square;
  halfmove_clock : Z;
  fullmove_number : Z
}.

(** A [chess.Board]: the current position, [move_stack] and the saved
    positions that [pop] restores. *)
Record Board := mkBoard {
  cur : Position;
  move_stack : list Move;
  state_stack : list Position
}.

Definition P (t : PieceType) (c : Color) : option Piece := Some (mkPiece t c).

(** Piece placement of the standard starting position, rank by rank. *)
Definition starting_rows : list (list (option Piece)) :=
  [ [P ROOK WHITE; P KNIGHT WHITE; P BISHOP WHITE; P QUEEN WHITE;
     P KING WHITE; P BISHOP WHITE; P KNIGHT WHITE; P ROOK WHITE];
    replicate 8 (P PAWN WHITE);
    replicate 8 None; replicate 8 None; replicate 8 None; replicate 8 None;
    replicate 8 (P PAWN BLACK);
    [P ROOK BLACK; P KNIGHT BLACK; P BISHOP BLACK; P QUEEN BLACK;
     P KING BLACK; P BISHOP BLACK; P KNIGHT BLACK; P ROOK BLACK] ].

Definition place (m : gmap Z Piece) (e : nat * option Piece) : gmap Z Piece :=
  match e.2 with
  | Some p => <[Z.of_nat e.1 := p]> m
  | None => m
  end.

Definition starting_pieces : gmap Z Piece :=
  foldl place ∅ (imap (fun i p => (i, p)) (concat starting_rows)).

(** [chess.Board()]. *)
Definition chess_Board : Board :=
  mkBoard (mkPosition starting_pieces WHITE (true, true, true, true) None 0 1)
          [] [].

(** [chess.Board(fen=None)]: the empty board. *)
Definition chess_Board_empty : Board :=
  mkBoard (mkPosition ∅ WHITE (false, false, false, false) None 0 1) [] [].

Definition with_pieces (b : Board) (m : gmap Z Piece) : Board :=
  mkBoard (mkPosition m (turn (cur b)) (castling_KQkq (cur b))
             (ep_square (cur b)) (halfmove_clock (cur b))
             (fullmove_number (cur b)))
          (move_stack b) (state_stack b).

(** [board.turn = c]. *)
Definition with_turn (b : Board) (c : Color) : Board :=
  mkBoard (mkPosition (pieces_map (cur b)) c (castling_KQkq (cur b))
             (ep_square (cur b)) (halfmove_clock (cur b))
             (fullmove_number (cur b)))
          (move_stack b) (state_stack b).

(** [board.piece_at(square)]. *)
Definition piece_at (b : Board) (sq : Square) : option Piece :=
  pieces_map (cur b) !! sq.

(** [board.remove_piece_at(square)]: the removed piece and the board. *)
Definition remove_piece_at (b : Board) (sq : Square) : option Piece * Board :=
  (piece_at b sq, with_pieces b (delete sq (pieces_map (cur b)))).

(** [board.set_piece_at(square, piece)]; a [None] piece clears the square. *)
Definition set_piece_at (b : Board) (sq : Square) (p : option Piece) : Board :=
  match p with
  | None => (remove_piece_at b sq).2
  | Some p => with_pieces b (<[sq := p]> (delete sq (pieces_map (cur b))))
  end.

(** [len(board.pieces(piece_type, color))]: how many squares hold that
    piece. *)
Definition count_pieces (b : Board) (t : PieceType) (c : Color) : Z :=
  Z.of_nat (length (filter (fun e => e.2 = mkPiece t c)
                           (map_to_list (pieces_map (cur b))))).

(** ** The rules library and the oracle, as interfaces *)

Class RulesLibrary := {
  (** [board.legal_moves], a function of the current position *)
  legal_moves : Position -> list Move;
  (** the position that [board.push(move)] produces *)
  apply_move : Position -> Move -> Position;
  (** [board.fen()] *)
  fen : Position -> string;
  is_checkmate : Position -> bool;
  is_stalemate : Position -> bool;
  is_insufficient_material : Position -> bool;
  (** [str(move)] *)
  uci : Move -> string;
  (** [chess.Move.from_uci]; [None] when it raises *)
  from_uci : string -> option Move
}.

(** One entry of [Stockfish.get_top_moves]: the keys the program reads. *)
Record TopMove := mkTopMove { Move_ : string; Centipawn : option Z }.

(** The engine wrapper's settings. *)
Record Stockfish := mkStockfish {
  sf_depth : Z;
  sf_skill_level : Z;
  sf_fen_position : string
}.

Class Oracle := {
  (** [stockfish_ai.get_top_moves(n)] for the position last set; [None]
      when the call raises *)
  get_top_moves : Stockfish -> Z -> option (list TopMove)
}.

Definition set_depth (e : Stockfish) (d : Z) : Stockfish :=
  mkStockfish d (sf_skill_level e) (sf_fen_position e).

Definition set_fen_position (e : Stockfish) (f : string) : Stockfish :=
  mkStockfish (sf_depth e) (sf_skill_level e) f.

Section Board_ops.
Context `{RulesLibrary}.

(** [board.push(move)]. *)
Definition push (b : Board) (m : Move) : Board :=
  mkBoard (apply_move (cur b) m) (move_stack b ++ [m])
          (state_stack b ++ [cur b]).

(** [board.pop()]; [None] when the move stack is empty (IndexError). *)
Definition pop (b : Board) : option Board :=
  match last (state_stack b) with
  | Some p => Some (mkBoard p (removelast (move_stack b))
                              (removelast (state_stack b)))
  | None => None
  end.

(** [move in board.legal_moves]. *)
Definition is_legal (b : Board) (m : Move) : bool :=
  bool_decide (m ∈ legal_moves (cur b)).

(** ** eval.py *)

Definition material_table : list (PieceType * Z) :=
  [(PAWN, 100); (KNIGHT, 300); (BISHOP, 300); (ROOK, 500); (QUEEN, 900)].

Definition material (b : Board) : Z :=
  foldr Z.add 0
    (flat_map (fun tv => map (fun c => count_pieces b tv.1 c * tv.2)
                             [WHITE; BLACK])
              material_table).

Definition evaluate_board (b : Board) : Z :=
  if is_checkmate (cur b) then
    (if decide (turn (cur b) = WHITE) then -9999 else 9999)
  else if is_stalemate (cur b) || is_insufficient_material (cur b) then 0
  else if decide (turn (cur b) = WHITE) then material b else - material b.

End Board_ops.

(** ** config.py *)

Definition BOARD_SIZE : Z := 640.
Definition SQUARE_SIZE : Z := BOARD_SIZE / 8.
Definition BOARD_OFFSET_X : Z := 40.
Definition BOARD_OFFSET_Y : Z := 40.
Definition CONTROL_PANEL_X : Z := BOARD_SIZE + BOARD_OFFSET_X + 20.

Definition SETUP_MODE : string := "setup".
Definition ANALYSIS_MODE : string := "analysis".
Definition PLAY_MODE : string := "play".

(** ** chess_predictor.py: the application state *)

(** The keys of [self.buttons], in insertion order. *)
Inductive Button :=
  | setup_mode | analysis_mode | play_mode
  | white_to_move | black_to_move
  | white_kingside | white_queenside | black_kingside | black_queenside
  | clear_board | reset_position | get_best_move | toggle_vs_ai.

#[global] Instance Button_eq_dec : EqDecision Button.
Proof. solve_decision. Defined.

(** [pygame.Rect(left, top, width, height)]. *)
Record Rect := mkRect { left : Z; top : Z; width : Z; height : Z }.

Definition collidepoint (r : Rect) (pos : Z * Z) : bool :=
  (left r <=? pos.1) && (pos.1 <? left r + width r) &&
  (top r <=? pos.2) && (pos.2 <? top r + height r).

(** [create_ui_elements]. *)
Definition buttons : list (Button * Rect) :=
  [ (setup_mode, mkRect (CONTROL_PANEL_X + 10) 40 80 25);
    (analysis_mode, mkRect (CONTROL_PANEL_X + 95) 40 80 25);
    (play_mode, mkRect (CONTROL_PANEL_X + 180) 40 80 25);
    (white_to_move, mkRect (CONTROL_PANEL_X + 27) 100 15 15);
    (black_to_move, mkRect (CONTROL_PANEL_X + 27) 125 15 15);
    (white_kingside, mkRect (CONTROL_PANEL_X + 20) 170 15 15);
    (white_queenside, mkRect (CONTROL_PANEL_X + 20) 190 15 15);
    (black_kingside, mkRect (CONTROL_PANEL_X + 20) 210 15 15);
    (black_queenside, mkRect (CONTROL_PANEL_X + 20) 230 15 15);
    (clear_board, mkRect (CONTROL_PANEL_X + 10) 270 100 25);
    (reset_position, mkRect (CONTROL_PANEL_X + 120) 270 100 25);
    (get_best_move, mkRect (CONTROL_PANEL_X + 230) 270 100 25);
    (toggle_vs_ai, mkRect (CONTROL_PANEL_X + 10) 300 100 25) ].

(** The first button whose rectangle holds the point, as the loop of
    [handle_button_click] finds it. *)
Definition button_at (pos : Z * Z) : option Button :=
  fst <$> List.find (fun br => collidepoint br.2 pos) buttons.

(** [self.castling_rights]: one flag per castling button. *)
Record CastlingRights := mkCastling {
  cr_white_kingside : bool; cr_white_queenside : bool;
  cr_black_kingside : bool; cr_black_queenside : bool
}.

(** An entry of [formatted_moves]. *)
Record FormattedMove := mkFormatted {
  fm_move : string;
  fm_centipawn : option Z;
  fm_mate : option Z
}.

(** [self.stockfish_comparison]. *)
Record Comparison := mkComparison {
  user_rank : option Z;
  top_moves : list FormattedMove;
  user_move : string
}.

(** Where a background thread stands.  [ai_worker] and
    [comparison_worker] run as daemon threads; they are cut at their
    engine calls, the only places where they wait. *)
Inductive AiPc :=
  | AiStart                          (* before [self.ai_thinking = True] *)
  | AiQuery                          (* before [get_top_moves(12)] *)
  | AiGot (tm : list TopMove)        (* the answer is in, nothing published *)
  | AiRaised                         (* an exception reached [except] *)
  | AiDone.

Inductive CmpPc :=
  | CmpStart
  | CmpQuery
  | CmpGot (tm : list TopMove)
  | CmpDone.

Inductive Thread :=
  | ai_worker (pc : AiPc)
  | comparison_worker (um : string) (pc : CmpPc).

Record ChessPredictor := mkApp {
  board : Board;
  selected_piece : option Square;
  dragging : bool;
  valid_moves : gset Z;
  current_mode : string;
  active_color : Color;
  castling_rights : CastlingRights;
  play_vs_ai : bool;
  stockfish_ai : option Stockfish;
  ai_thinking : bool;
  last_ai_move : option string;
  last_ai_eval : option Q;
  stockfish_comparison : option Comparison;
  ai_suggested_square : option Square;
  move_history : list Move;
  position_history : list string;
  threads : list Thread
}.

(** The state [__init__] leaves; [sf] is the engine wrapper, [None] when
    the library or the binary is missing. *)
Definition init (sf : option Stockfish) : ChessPredictor :=
  mkApp chess_Board None false ∅ SETUP_MODE WHITE
        (mkCastling true true true true) false sf false None None None None
        [] [] [].

Section Setters.
Variable s : ChessPredictor.

Definition set_board v := mkApp v (selected_piece s) (dragging s)
  (valid_moves s) (current_mode s) (active_color s) (castling_rights s)
  (play_vs_ai s) (stockfish_ai s) (ai_thinking s) (last_ai_move s)
  (last_ai_eval s) (stockfish_comparison s) (ai_suggested_square s)
  (move_history s) (position_history s) (threads s).
Definition set_selected_piece v := mkApp (board s) v (dragging s)
  (valid_moves s) (current_mode s) (active_color s) (castling_rights s)
  (play_vs_ai s) (stockfish_ai s) (ai_thinking s) (last_ai_move s)
  (last_ai_eval s) (stockfish_comparison s) (ai_suggested_square s)
  (move_history s) (position_history s) (threads s).
Definition set_dragging v := mkApp (board s) (selected_piece s) v
  (valid_moves s) (current_mode s) (active_color s) (castling_rights s)
  (play_vs_ai s) (stockfish_ai s) (ai_thinking s) (last_ai_move s)
  (last_ai_eval s) (stockfish_comparison s) (ai_suggested_square s)
  (move_history s) (position_history s) (threads s).
Definition set_valid_moves v := mkApp (board s) (selected_piece s)
  (dragging s) v (current_mode s) (active_color s) (castling_rights s)
  (play_vs_ai s) (stockfish_ai s) (ai_thinking s) (last_ai_move s)
  (last_ai_eval s) (stockfish_comparison s) (ai_suggested_square s)
  (move_history s) (position_history s) (threads s).
Definition set_current_mode v := mkApp (board s) (selected_piece s)
  (dragging s) (valid_moves s) v (active_color s) (castling_rights s)
  (play_vs_ai s) (stockfish_ai s) (ai_thinking s) (last_ai_move s)
  (last_ai_eval s) (stockfish_comparison s) (ai_suggested_square s)
  (move_history s) (position_history s) (threads s).
Definition set_active_color v := mkApp (board s) (selected_piece s)
  (dragging s) (valid_moves s) (current_mode s) v (castling_rights s)
  (play_vs_ai s) (stockfish_ai s) (ai_thinking s) (last_ai_move s)
  (last_ai_eval s) (stockfish_comparison s) (ai_suggested_square s)
  (move_history s) (position_history s) (threads s).
Definition set_castling_rights v := mkApp (board s) (selected_piece s)
  (dragging s) (valid_moves s) (current_mode s) (active_color s) v
  (play_vs_ai s) (stockfish_ai s) (ai_thinking s) (last_ai_move s)
  (last_ai_eval s) (stockfish_comparison s) (ai_suggested_square s)
  (move_history s) (position_history s) (threads s).
Definition set_play_vs_ai v := mkApp (board s) (selected_piece s)
  (dragging s) (valid_moves s) (current_mode s) (active_color s)
  (castling_rights s) v (stockfish_ai s) (ai_thinking s) (last_ai_move s)
  (last_ai_eval s) (stockfish_comparison s) (ai_suggested_square s)
  (move_history s) (position_history s) (threads s).
Definition set_stockfish_ai v := mkApp (board s) (selected_piece s)
  (dragging s) (valid_moves s) (current_mode s) (active_color s)
  (castling_rights s) (play_vs_ai s) v (ai_thinking s) (last_ai_move s)
  (last_ai_eval s) (stockfish_comparison s) (ai_suggested_square s)
  (move_history s) (position_history s) (threads s).
Definition set_ai_thinking v := mkApp (board s) (selected_piece s)
  (dragging s) (valid_moves s) (current_mode s) (active_color s)
  (castling_rights s) (play_vs_ai s) (stockfish_ai s) v (last_ai_move s)
  (last_ai_eval s) (stockfish_comparison s) (ai_suggested_square s)
  (move_history s) (position_history s) (threads s).
Definition set_last_ai_move v := mkApp (board s) (selected_piece s)
  (dragging s) (valid_moves s) (current_mode s) (active_color s)
  (castling_rights s) (play_vs_ai s) (stockfish_ai s) (ai_thinking s) v
  (last_ai_eval s) (stockfish_comparison s) (ai_suggested_square s)
  (move_history s) (position_history s) (threads s).
Definition set_last_ai_eval v := mkApp (board s) (selected_piece s)
  (dragging s) (valid_moves s) (current_mode s) (active_color s)
  (castling_rights s) (play_vs_ai s) (stockfish_ai s) (ai_thinking s)
  (last_ai_move s) v (stockfish_comparison s) (ai_suggested_square s)
  (move_history s) (position_history s) (threads s).
Definition set_stockfish_comparison v := mkApp (board s) (selected_piece s)
  (dragging s) (valid_moves s) (current_mode s) (active_color s)
  (castling_rights s) (play_vs_ai s) (stockfish_ai s) (ai_thinking s)
  (last_ai_move s) (last_ai_eval s) v (ai_suggested_square s)
  (move_history s) (position_history s) (threads s).
Definition set_ai_suggested_square v := mkApp (board s) (selected_piece s)
  (dragging s) (valid_moves s) (current_mode s) (active_color s)
  (castling_rights s) (play_vs_ai s) (stockfish_ai s) (ai_thinking s)
  (last_ai_move s) (last_ai_eval s) (stockfish_comparison s) v
  (move_history s) (position_history s) (threads s).
Definition set_move_history v := mkApp (board s) (selected_piece s)
  (dragging s) (valid_moves s) (current_mode s) (active_color s)
  (castling_rights s) (play_vs_ai s) (stockfish_ai s) (ai_thinking s)
  (last_ai_move s) (last_ai_eval s) (stockfish_comparison s)
  (ai_suggested_square s) v (position_history s) (threads s).
Definition set_position_history v := mkApp (board s) (selected_piece s)
  (dragging s) (valid_moves s) (current_mode s) (active_color s)
  (castling_rights s) (play_vs_ai s) (stockfish_ai s) (ai_thinking s)
  (last_ai_move s) (last_ai_eval s) (stockfish_comparison s)
  (ai_suggested_square s) (move_history s) v (threads s).
Definition set_threads v := mkApp (board s) (selected_piece s)
  (dragging s) (valid_moves s) (current_mode s) (active_color s)
  (castling_rights s) (play_vs_ai s) (stockfish_ai s) (ai_thinking s)
  (last_ai_move s) (last_ai_eval s) (stockfish_comparison s)
  (ai_suggested_square s) (move_history s) (position_history s) v.
End Setters.

(** [threading.Thread(target=..., daemon=True).start()]. *)
Definition spawn (s : ChessPredictor) (t : Thread) : ChessPredictor :=
  set_threads s (threads s ++ [t]).

(** [get_square_from_pos]. *)
Definition get_square_from_pos (pos : Z * Z) : option Square :=
  let board_x := pos.1 - BOARD_OFFSET_X in
  let board_y := pos.2 - BOARD_OFFSET_Y in
  if (board_x <? 0) || (board_x >=? BOARD_SIZE) ||
     (board_y <? 0) || (board_y >=? BOARD_SIZE)
  then None
  else Some (square (board_x / SQUARE_SIZE) (7 - board_y / SQUARE_SIZE)).

(** A target piece that is a king ([target_piece and
    target_piece.piece_type == chess.KING]). *)
Definition holds_king (b : Board) (sq : Square) : bool :=
  match piece_at b sq with
  | Some p => bool_decide (piece_type p = KING)
  | None => false
  end.

(** ** chess_predictor.py: the operations *)

Section Predictor.
Context `{RulesLibrary} `{Oracle}.

(** [is_valid_move]. *)
Definition is_valid_move (s : ChessPredictor) (from_sq to_sq : Square) : bool :=
  if String.eqb (current_mode s) SETUP_MODE then
    if holds_king (board s) to_sq then false else true
  else is_legal (board s) (chess_Move from_sq to_sq).

(** [get_stockfish_comparison]: starts [comparison_worker]. *)
Definition get_stockfish_comparison (s : ChessPredictor) (um : string)
  : ChessPredictor :=
  match stockfish_ai s with
  | None => s
  | Some _ => spawn s (comparison_worker um CmpStart)
  end.

(** [make_move]: the returned flag and the state it leaves. *)
Definition make_move (s : ChessPredictor) (m : Move) : bool * ChessPredictor :=
  if is_legal (board s) m then
    let s1 := set_move_history s (move_history s ++ [m]) in
    let s2 := set_position_history s1
                (position_history s1 ++ [fen (cur (board s1))]) in
    let s3 := set_board s2 (push (board s2) m) in
    let s4 := match stockfish_ai s3 with
              | Some _ => get_stockfish_comparison s3 (uci m)
              | None => s3
              end in
    (true, s4)
  else (false, s).

(** [get_ai_move], the part that runs on the caller's thread. *)
Definition get_ai_move (s : ChessPredictor) : ChessPredictor :=
  match stockfish_ai s with
  | None => set_last_ai_eval (set_last_ai_move s (Some "No AI available")) None
  | Some _ =>
      let s1 := if ai_thinking s then set_ai_thinking s false else s in
      spawn s1 (ai_worker AiStart)
  end.

(** The [except Exception] and [finally] clauses of [ai_worker]. *)
Definition ai_except (s : ChessPredictor) : ChessPredictor :=
  set_last_ai_eval (set_last_ai_move s (Some "AI Error")) None.

Definition ai_finally (s : ChessPredictor) : ChessPredictor :=
  set_ai_thinking s false.

(** [ai_worker] from the answer of [get_top_moves(12)] to the end of the
    [try] block. *)
Definition ai_publish (s : ChessPredictor) (tm : list TopMove) : ChessPredictor :=
  match tm with
  | [] => set_last_ai_eval (set_last_ai_move s (Some "No moves")) None
  | _ =>
      let move_index := Z.min 9 (Z.of_nat (length tm) - 1) in
      match tm !! Z.to_nat move_index with
      | None => ai_except s
      | Some selected_move =>
          let move_uci := Move_ selected_move in
          let centipawns :=
            match Centipawn selected_move with
            | Some c => if c =? 0 then 0 else c
            | None => 0
            end in
          let eval_pawns := Qmake centipawns 100 in
          let s1 := set_last_ai_move s (Some move_uci) in
          let s2 := set_last_ai_eval s1 (Some eval_pawns) in
          let s3 := set_ai_suggested_square s2
                      (to_square <$> from_uci move_uci) in
          if String.eqb (current_mode s3) PLAY_MODE && play_vs_ai s3 then
            match from_uci move_uci with
            | Some ai_move =>
                if is_legal (board s3) ai_move
                then (make_move s3 ai_move).2 else s3
            | None => s3
            end
          else s3
      end
  end.

(** One scheduling step of [ai_worker]. *)
Definition ai_step (s : ChessPredictor) (pc : AiPc) : ChessPredictor * AiPc :=
  match pc with
  | AiStart =>
      let s1 := set_ai_thinking s true in
      match stockfish_ai s1 with
      | Some e =>
          (set_stockfish_ai s1
             (Some (set_fen_position (set_depth e 8) (fen (cur (board s1))))),
           AiQuery)
      | None => (s1, AiRaised)
      end
  | AiQuery =>
      match stockfish_ai s with
      | Some e =>
          match get_top_moves e 12 with
          | Some tm => (s, AiGot tm)
          | None => (s, AiRaised)
          end
      | None => (s, AiRaised)
      end
  | AiGot tm => (ai_finally (ai_publish s tm), AiDone)
  | AiRaised => (ai_finally (ai_except s), AiDone)
  | AiDone => (s, AiDone)
  end.

(** The loop of [comparison_worker] that looks for the user's move;
    [i] is the index [enumerate] has reached. *)
Fixpoint find_rank (i : Z) (tm : list TopMove) (um : string) : option Z :=
  match tm with
  | [] => None
  | move_data :: rest =>
      if String.eqb (Move_ move_data) um then Some (i + 1)
      else find_rank (i + 1) rest um
  end.

Definition format_move (move_data : TopMove) : FormattedMove :=
  mkFormatted (Move_ move_data) (Centipawn move_data) None.

(** The dictionary [comparison_worker] stores. *)
Definition compare_moves (tm : list TopMove) (um : string) : Comparison :=
  mkComparison (find_rank 0 tm um) (map format_move tm) um.

(** One scheduling step of [comparison_worker]; every exception ends the
    thread after a message. *)
Definition cmp_step (s : ChessPredictor) (um : string) (pc : CmpPc)
  : ChessPredictor * CmpPc :=
  match pc with
  | CmpStart =>
      match pop (board s), stockfish_ai s with
      | Some temp_board, Some e =>
          (set_stockfish_ai s
             (Some (set_fen_position e (fen (cur temp_board)))), CmpQuery)
      | _, _ => (s, CmpDone)
      end
  | CmpQuery =>
      match stockfish_ai s with
      | Some e =>
          match get_top_moves e 5 with
          | Some tm => (s, CmpGot tm)
          | None => (s, CmpDone)
          end
      | None => (s, CmpDone)
      end
  | CmpGot tm =>
      (set_stockfish_comparison s (Some (compare_moves tm um)), CmpDone)
  | CmpDone => (s, CmpDone)
  end.

(** The scheduler lets thread number [i] run up to its next cut. *)
Definition step_thread (i : nat) (s : ChessPredictor) : ChessPredictor :=
  match threads s !! i with
  | Some (ai_worker pc) =>
      let r := ai_step s pc in
      set_threads r.1 (<[i := ai_worker r.2]> (threads r.1))
  | Some (comparison_worker um pc) =>
      let r := cmp_step s um pc in
      set_threads r.1 (<[i := comparison_worker um r.2]> (threads r.1))
  | None => s
  end.

Definition toggle_castling (b : Button) (c : CastlingRights) : CastlingRights :=
  match b with
  | white_kingside => mkCastling (negb (cr_white_kingside c))
      (cr_white_queenside c) (cr_black_kingside c) (cr_black_queenside c)
  | white_queenside => mkCastling (cr_white_kingside c)
      (negb (cr_white_queenside c)) (cr_black_kingside c) (cr_black_queenside c)
  | black_kingside => mkCastling (cr_white_kingside c)
      (cr_white_queenside c) (negb (cr_black_kingside c)) (cr_black_queenside c)
  | black_queenside => mkCastling (cr_white_kingside c)
      (cr_white_queenside c) (cr_black_kingside c) (negb (cr_black_queenside c))
  | _ => c
  end.

(** [mode = button_name.replace('_mode', '')]. *)
Definition mode_of_button (b : Button) : option string :=
  match b with
  | setup_mode => Some SETUP_MODE
  | analysis_mode => Some ANALYSIS_MODE
  | play_mode => Some PLAY_MODE
  | _ => None
  end.

(** The branch of [handle_button_click] for one button. *)
Definition click_button (s : ChessPredictor) (b : Button) : ChessPredictor :=
  match b with
  | setup_mode | analysis_mode | play_mode =>
      match mode_of_button b with
      | Some mode => set_valid_moves (set_current_mode s mode) ∅
      | None => s
      end
  | white_to_move =>
      let s1 := set_active_color s WHITE in
      set_board s1 (with_turn (board s1) WHITE)
  | black_to_move =>
      let s1 := set_active_color s BLACK in
      set_board s1 (with_turn (board s1) BLACK)
  | white_kingside | white_queenside | black_kingside | black_queenside =>
      set_castling_rights s (toggle_castling b (castling_rights s))
  | clear_board =>
      let s1 := set_board s chess_Board_empty in
      let s2 := set_move_history s1 [] in
      let s3 := set_position_history s2 [] in
      let s4 := set_stockfish_comparison s3 None in
      set_last_ai_move s4 None
  | reset_position =>
      let s1 := set_board s chess_Board in
      let s2 := set_move_history s1 [] in
      let s3 := set_position_history s2 [] in
      let s4 := set_stockfish_comparison s3 None in
      set_last_ai_move s4 None
  | get_best_move => get_ai_move s
  | toggle_vs_ai => set_play_vs_ai s (negb (play_vs_ai s))
  end.

(** [handle_button_click]. *)
Definition handle_button_click (s : ChessPredictor) (pos : Z * Z)
  : bool * ChessPredictor :=
  match button_at pos with
  | Some b => (true, click_button s b)
  | None => (false, s)
  end.

(** The [MOUSEBUTTONDOWN] branch of [run] (left button). *)
Definition mouse_button_down (s : ChessPredictor) (pos : Z * Z) : ChessPredictor :=
  if pos.1 >=? CONTROL_PANEL_X then (handle_button_click s pos).2
  else
    match get_square_from_pos pos with
    | None => s
    | Some sq =>
        let piece := piece_at (board s) sq in
        if String.eqb (current_mode s) SETUP_MODE then
          match piece with
          | Some _ => set_dragging (set_selected_piece s (Some sq)) true
          | None => s
          end
        else
          match piece with
          | Some p =>
              if bool_decide (color p = turn (cur (board s))) then
                let s1 := set_dragging (set_selected_piece s (Some sq)) true in
                set_valid_moves s1
                  (list_to_set
                     (to_square <$>
                        filter (fun m => from_square m = sq)
                               (legal_moves (cur (board s1)))))
              else set_valid_moves (set_selected_piece s None) ∅
          | None => set_valid_moves (set_selected_piece s None) ∅
          end
    end.

(** What [run] does with a release on [target_square] when
    [self.selected_piece] is the square [src]. *)
Definition drop_piece (s : ChessPredictor) (src target_square : Square)
  : ChessPredictor :=
  if is_valid_move s src target_square then
    if String.eqb (current_mode s) SETUP_MODE then
      let r := remove_piece_at (board s) src in
      let b2 := (remove_piece_at r.2 target_square).2 in
      set_board s (set_piece_at b2 target_square r.1)
    else
      let r := make_move s (chess_Move src target_square) in
      if r.1 then
        if String.eqb (current_mode r.2) PLAY_MODE && play_vs_ai r.2 &&
           negb (bool_decide (turn (cur (board r.2)) = active_color r.2))
        then get_ai_move r.2 else r.2
      else r.2
  else s.

Definition clear_selection (s : ChessPredictor) : ChessPredictor :=
  set_valid_moves (set_selected_piece (set_dragging s false) None) ∅.

(** The [MOUSEBUTTONUP] branch of [run] (left button).  [None] stands for
    the TypeError that [remove_piece_at(None)] raises in Setup mode when
    nothing is selected; outside Setup the bare [except] of
    [is_valid_move] turns the same situation into a refusal. *)
Definition mouse_button_up (s : ChessPredictor) (pos : Z * Z)
  : option ChessPredictor :=
  if dragging s then
    match get_square_from_pos pos, selected_piece s with
    | None, _ => Some (clear_selection s)
    | Some t, Some src => Some (clear_selection (drop_piece s src t))
    | Some t, None =>
        if String.eqb (current_mode s) SETUP_MODE && negb (holds_king (board s) t)
        then None else Some (clear_selection s)
    end
  else Some s.

End Predictor.

(** ** functional_chessboard.py *)

Module ChessGUI.

Record t := mk {
  board : Board;
  selected_piece : option Square;
  dragging : bool;
  setup_mode : bool;
  valid_moves : gset Z
}.

(** [ChessGUI.__init__]. *)
Definition init : t := mk chess_Board None false true ∅.

Definition get_square_from_pos (pos : Z * Z) : option Square :=
  if (pos.1 >=? BOARD_SIZE) || (pos.2 >=? BOARD_SIZE) then None
  else Some (square (pos.1 / SQUARE_SIZE) (7 - pos.2 / SQUARE_SIZE)).

Section Ops.
Context `{RulesLibrary}.

(** [ChessGUI.is_valid_move]; [moving_piece] is read and not used. *)
Definition is_valid_move (g : t) (from_sq to_sq : Square) : bool :=
  if setup_mode g then
    let target_piece := piece_at (board g) to_sq in
    let moving_piece := piece_at (board g) from_sq in
    if holds_king (board g) to_sq then false else true
  else is_legal (board g) (chess_Move from_sq to_sq).

Definition mouse_button_down (g : t) (pos : Z * Z) : t :=
  match get_square_from_pos pos with
  | Some sq =>
      match piece_at (board g) sq with
      | Some _ =>
          mk (board g) (Some sq) true (setup_mode g)
             (if setup_mode g then valid_moves g
              else list_to_set
                     (to_square <$>
                        filter (fun m => from_square m = sq)
                               (legal_moves (cur (board g)))))
      | None => g
      end
  | None => g
  end.

(** The placement of [run] for a release on [target_square] with
    [src] selected. *)
Definition drop_piece (g : t) (src target_square : Square) : t :=
  if is_valid_move g src target_square then
    let r := remove_piece_at (board g) src in
    let b2 := (remove_piece_at r.2 target_square).2 in
    mk (set_piece_at b2 target_square r.1) (selected_piece g)
       (dragging g) (setup_mode g) (valid_moves g)
  else g.

(** The [MOUSEBUTTONUP] branch of [ChessGUI.run].  [None] stands for the
    TypeError of a release with nothing selected, which nothing catches
    here: in Setup mode it comes from [remove_piece_at(None)] once the
    target passes the king test, outside Setup from the legality test,
    which looks up the source square unless the move is all zeros
    (target a1) and then simply answers no. *)
Definition mouse_button_up (g : t) (pos : Z * Z) : option t :=
  if dragging g then
    match get_square_from_pos pos, selected_piece g with
    | None, _ => Some (mk (board g) None false (setup_mode g) ∅)
    | Some target, Some src =>
        Some (mk (board (drop_piece g src target)) None false (setup_mode g) ∅)
    | Some target, None =>
        if (if setup_mode g then holds_king (board g) target else target =? 0)
        then Some (mk (board g) None false (setup_mode g) ∅)
        else None
    end
  else Some g.

End Ops.
End ChessGUI.

(** ** A small rules library and oracle for running the program

    [opening_rules] answers as python-chess does on the standard starting
    position and on the positions one pawn or knight move away from it,
    which is all the examples below visit; positions further on are
    outside what it knows (it reports no legal move there). *)

Module Opening.

#[global] Instance Position_eq_dec : EqDecision Position.
Proof. solve_decision. Defined.

Definition start : Position := cur chess_Board.

(** The twenty first moves: each pawn one or two squares, each knight
    to the third rank. *)
Definition first_moves : list Move :=
  flat_map (fun f => [chess_Move (8 + f) (16 + f); chess_Move (8 + f) (24 + f)])
           [0; 1; 2; 3; 4; 5; 6; 7]
  ++ [chess_Move 1 16; chess_Move 1 18; chess_Move 6 21; chess_Move 6 23].


Definition flip (c : Color) : Color :=
  match c with WHITE => BLACK | BLACK => WHITE end.

(** A quiet move: the piece travels, the turn passes, the clocks tick. *)
Definition opening_apply_move (p : Position) (m : Move) : Position :=
  let moved := pieces_map p !! from_square m in
  let is_pawn := match moved with
                 | Some q => bool_decide (piece_type q = PAWN)
                 | None => false
                 end in
  mkPosition
    (match moved with
     | Some q => <[to_square m := q]> (delete (from_square m) (pieces_map p))
     | None => pieces_map p
     end)
    (flip (turn p))
    (castling_KQkq p)
    (if is_pawn && (Z.abs (to_square m - from_square m) =? 16)
     then Some ((to_square m + from_square m) / 2) else None)
    (if is_pawn || bool_decide (is_Some (pieces_map p !! to_square m))
     then 0 else halfmove_clock p + 1)
    (if decide (turn p = BLACK) then fullmove_number p + 1
     else fullmove_number p).

(** Black's twenty replies. *)
Definition first_replies : list Move :=
  flat_map (fun f => [chess_Move (48 + f) (40 + f); chess_Move (48 + f) (32 + f)])
           [0; 1; 2; 3; 4; 5; 6; 7]
  ++ [chess_Move 57 40; chess_Move 57 42; chess_Move 62 45; chess_Move 62 47].

Definition opening_legal_moves (p : Position) : list Move :=
  if decide (p = start) then first_moves
  else if bool_decide (p ∈ opening_apply_move start <$> first_moves)
  then first_replies else [].

Definition piece_symbol (q : Piece) : string :=
  match color q, piece_type q with
  | WHITE, PAWN => "P" | WHITE, KNIGHT => "N" | WHITE, BISHOP => "B"
  | WHITE, ROOK => "R" | WHITE, QUEEN => "Q" | WHITE, KING => "K"
  | BLACK, PAWN => "p" | BLACK, KNIGHT => "n" | BLACK, BISHOP => "b"
  | BLACK, ROOK => "r" | BLACK, QUEEN => "q" | BLACK, KING => "k"
  end.

Definition flush (empty : Z) : string :=
  if empty =? 0 then "" else pretty empty.

(** One rank of the placement field, files a to h. *)
Fixpoint rank_fen (m : gmap Z Piece) (rank : Z) (files : list Z) (empty : Z)
  : string :=
  match files with
  | [] => flush empty
  | f :: rest =>
      match m !! square f rank with
      | Some q => flush empty +:+ piece_symbol q +:+ rank_fen m rank rest 0
      | None => rank_fen m rank rest (empty + 1)
      end
  end.

Definition board_fen (m : gmap Z Piece) : string :=
  String.concat "/"
    (map (fun r => rank_fen m r [0; 1; 2; 3; 4; 5; 6; 7] 0)
         [7; 6; 5; 4; 3; 2; 1; 0]).

Definition castling_fen (c : bool * bool * bool * bool) : string :=
  let '(wk, wq, bk, bq) := c in
  let s := (if wk then "K" else "") +:+ (if wq then "Q" else "") +:+
           (if bk then "k" else "") +:+ (if bq then "q" else "") in
  if String.eqb s "" then "-" else s.

(** The en-passant field is written only when a capture is legal there,
    which no position of the first two plies offers. *)
Definition opening_fen (p : Position) : string :=
  board_fen (pieces_map p) +:+ " " +:+
  (match turn p with WHITE => "w" | BLACK => "b" end) +:+ " " +:+
  castling_fen (castling_KQkq p) +:+ " - " +:+
  pretty (halfmove_clock p) +:+ " " +:+ pretty (fullmove_number p).

Definition square_name (sq : Square) : string :=
  match ["a"; "b"; "c"; "d"; "e"; "f"; "g"; "h"] !! Z.to_nat (sq mod 8) with
  | Some f => f +:+ pretty (sq / 8 + 1)
  | None => ""
  end.

Definition opening_uci (m : Move) : string :=
  square_name (from_square m) +:+ square_name (to_square m) +:+
  match promotion m with
  | Some KNIGHT => "n" | Some BISHOP => "b" | Some ROOK => "r"
  | Some QUEEN => "q" | _ => ""
  end.

Definition all_squares : list Z := Z.of_nat <$> seq 0 64.

(** Plain moves only: the text must name two different squares. *)
Definition opening_from_uci (u : string) : option Move :=
  head (flat_map (fun a =>
          flat_map (fun b =>
            if bool_decide (a ≠ b) && String.eqb (square_name a +:+ square_name b) u
            then [chess_Move a b] else [])
            all_squares) all_squares).

Definition opening_rules : RulesLibrary := {|
  legal_moves := opening_legal_moves;
  apply_move := opening_apply_move;
  fen := opening_fen;
  is_checkmate := fun _ => false;
  is_stalemate := fun _ => false;
  is_insufficient_material := fun _ => false;
  uci := opening_uci;
  from_uci := opening_from_uci
|}.

Definition five_moves : list TopMove :=
  [ mkTopMove "e2e4" (Some 30); mkTopMove "d2d4" (Some 25);
    mkTopMove "g1f3" (Some 20); mkTopMove "c2c4" (Some 15);
    mkTopMove "b1c3" (Some 10) ].

Definition after_e2e4 : Position := opening_apply_move start (chess_Move 12 28).

(** An engine with a fixed answer per position: five moves for White at
    the start, the reply e7e5 after 1.e4, the reply d7d5 elsewhere. *)
Definition scripted_oracle : Oracle := {|
  get_top_moves := fun e _ =>
    if String.eqb (sf_fen_position e) (opening_fen start)
    then Some five_moves
    else if String.eqb (sf_fen_position e) (opening_fen after_e2e4)
    then Some [mkTopMove "e7e5" (Some (-20))]
    else Some [mkTopMove "d7d5" (Some (-15))]
|}.


(** An engine whose calls raise. *)
Definition broken_oracle : Oracle := {|
  get_top_moves := fun _ _ => None
|}.

(** The wrapper as [__init__] leaves it. *)
Definition engine : Stockfish := mkStockfish 10 15 (opening_fen start).

End Opening.


(** ** Running the program *)

(** The three components of the position store. *)
Definition store (s : ChessPredictor) : Board * list Move * list string :=
  (board s, move_history s, position_history s).

(** What happens next: an event of the [run] loop (left button), or the
    scheduler letting background thread [i] run to its next cut. *)
Inductive Event :=
  | MOUSEBUTTONDOWN (pos : Z * Z)
  | MOUSEBUTTONUP (pos : Z * Z)
  | Schedule (i : nat).


Section Runs.
Context `{RulesLibrary} `{Oracle}.

Definition handle (s : ChessPredictor) (e : Event) : option ChessPredictor :=
  match e with
  | MOUSEBUTTONDOWN pos => Some (mouse_button_down s pos)
  | MOUSEBUTTONUP pos => mouse_button_up s pos
  | Schedule i => Some (step_thread i s)
  end.

(** [None] when an exception leaves the loop. *)
Fixpoint run_events (evs : list Event) (s : ChessPredictor)
  : option ChessPredictor :=
  match evs with
  | [] => Some s
  | e :: rest =>
      match handle s e with
      | Some s' => run_events rest s'
      | None => None
      end
  end.



End Runs.

(** ** Scenarios *)

Module Scenario.
Import Opening.

(** Engine present, Play mode against the engine.  White plays e2-e4 and
    the worker for Black's reply gets its answer; before it publishes, the
    user resets the board and plays d2-d4, which starts a second worker;
    that worker sets the engine to the new position. *)
Definition superseded_request : list Event :=
  [ MOUSEBUTTONDOWN (900, 50);            (* Play *)
    MOUSEBUTTONDOWN (720, 310);           (* VS AI: ON *)
    MOUSEBUTTONDOWN (400, 560); MOUSEBUTTONUP (400, 400);   (* e2-e4 *)
    Schedule 1; Schedule 1;               (* first worker: query answered *)
    MOUSEBUTTONDOWN (830, 280);           (* Reset *)
    MOUSEBUTTONDOWN (320, 560); MOUSEBUTTONUP (320, 400);   (* d2-d4 *)
    Schedule 3 ].                         (* second worker: position set *)


(** The starting position in Setup mode without an engine, and in
    Analysis mode with one. *)
Definition setup_start : ChessPredictor := init None.

Definition analysis_start : ChessPredictor :=
  click_button (init (Some engine)) analysis_mode.

(** A click on Play, then the e2 pawn dragged to e4, every press followed
    by its release, and the comparison thread scheduled once. *)
Definition click_and_drag : list Event :=
  [ MOUSEBUTTONDOWN (900, 50); MOUSEBUTTONUP (900, 50);
    MOUSEBUTTONDOWN (400, 560); Schedule 0; MOUSEBUTTONUP (400, 400);
    Schedule 0 ].

(** The rook's square a1 selected in Analysis mode, with one highlighted
    destination. *)
Definition a1_selected : ChessPredictor :=
  set_valid_moves (set_selected_piece analysis_start (Some 0)) {[ 8 ]}.

(** In Analysis mode the button goes down three times without coming up
    (on e2, on the empty e4, on the Setup button) and is then released on
    e4. *)
Definition triple_press : list Event :=
  [ MOUSEBUTTONDOWN (800, 50); MOUSEBUTTONDOWN (400, 560);
    MOUSEBUTTONDOWN (400, 400); MOUSEBUTTONDOWN (720, 50);
    MOUSEBUTTONUP (400, 400) ].

Definition after_d2d4_fen : string :=
  "rnbqkbnr/pppppppp/8/8/3P4/8/PPP1PPPP/RNBQKBNR b KQkq - 0 1".

Definition after_d2d4_e7e5_fen : string :=
  "rnbqkbnr/pppp1ppp/8/4p3/3P4/8/PPP1PPPP/RNBQKBNR w KQkq - 0 2".

End Scenario.

(** ** Board geometry of [draw_board] and [draw_pieces] *)

(** [chess.square_file], [chess.square_rank]. *)
Definition square_file (sq : Square) : Z := Z.land sq 7.
Definition square_rank (sq : Square) : Z := Z.shiftr sq 3.

(** [draw_board]: the square that row [row], column [col] of the double
    loop stands for, and the rectangle painted for it. *)
Definition drawn_square (row col : Z) : Square * Rect :=
  (square col (7 - row),
   mkRect (BOARD_OFFSET_X + col * SQUARE_SIZE) (BOARD_OFFSET_Y + row * SQUARE_SIZE)
          SQUARE_SIZE SQUARE_SIZE).

(** The centre of a square, where [draw_board] puts the dot of a valid
    move and around which [draw_pieces] places the sprite. *)
Definition square_center (sq : Square) : Z * Z :=
  (BOARD_OFFSET_X + square_file sq * SQUARE_SIZE + SQUARE_SIZE / 2,
   BOARD_OFFSET_Y + (7 - square_rank sq) * SQUARE_SIZE + SQUARE_SIZE / 2).

(** The button that gives the move to colour [c]. *)
Definition to_move_button (c : Color) : Button :=
  match c with WHITE => white_to_move | BLACK => black_to_move end.

(** What the user has set and selected, apart from the position. *)
Definition ui (s : ChessPredictor)
  : option Square * bool * gset Z * string * Color * CastlingRights * bool :=
  (selected_piece s, dragging s, valid_moves s, current_mode s,
   active_color s, castling_rights s, play_vs_ai s).

(** A drag in progress has a selected square, and there is no drag while
    the button is up. *)
Definition drag_consistent (pressed : bool) (s : ChessPredictor) : Prop :=
  (dragging s = true -> is_Some (selected_piece s))
  /\ (pressed = false -> dragging s = false).

(** [draw_board]: the centres of the dots drawn for valid moves.  The
    test [if self.selected_piece and ...] is on the truth value of the
    selected square, and square 0 (a1) counts as false. *)
Definition valid_move_dots (s : ChessPredictor) : gset (Z * Z) :=
  let selected :=
    match selected_piece s with
    | Some sq => negb (sq =? 0)
    | None => false
    end in
  if selected && negb (String.eqb (current_mode s) SETUP_MODE)
  then set_map square_center (valid_moves s)
  else ∅.

(** ** Well-formed input of the event loop *)

(** A left button goes down and up in turn; [pressed] tells whether it is
    down when the events start.  The scheduler may act at any time. *)
Fixpoint alternating (pressed : bool) (evs : list Event) : bool :=
  match evs with
  | [] => true
  | MOUSEBUTTONDOWN _ :: rest => negb pressed && alternating true rest
  | MOUSEBUTTONUP _ :: rest => pressed && alternating false rest
  | Schedule _ :: rest => alternating pressed rest
  end.


(** ** dataset_processor.py *)

(** Python's [int] on a string; [None] when it raises ValueError. *)
Class Builtins := {
  int : string -> option Z
}.

(** [board.san(move)] of the rules library. *)
Class SanLibrary := {
  san : Position -> Move -> string
}.

Module DatasetProcessor.

(** A [chess.pgn.Game]: its headers, [game.board()] and
    [game.mainline_moves()]. *)
Record Game := mkGame {
  headers : gmap string string;
  game_board : Board;
  mainline_moves : list Move
}.

(** The dictionary [parse_game] returns. *)
Record GameInfo := mkGameInfo {
  white : string; black : string;
  white_elo : Z; black_elo : Z;
  result : string; date : string; event : string;
  time_control : string; opening : string; eco : string
}.

(** A row of [extract_positions]. *)
Record PositionData := mkPositionData {
  pd_fen : string;
  pd_move : string;
  pd_move_san : string;
  pd_move_number : Z;
  pd_to_move : string;
  pd_evaluation : Q;
  pd_piece_count : Z
}.

(** The character ['+'] (code 43). *)
Definition plus_sign : Ascii.ascii := Ascii.ascii_of_nat 43.

(** ['+' in time_control]. *)
Fixpoint contains_plus (s : string) : bool :=
  match s with
  | EmptyString => false
  | String c rest => if Ascii.eqb c plus_sign then true else contains_plus rest
  end.

(** [time_control.split('+')[0]]. *)
Fixpoint before_plus (s : string) : string :=
  match s with
  | EmptyString => EmptyString
  | String c rest =>
      if Ascii.eqb c plus_sign then EmptyString
      else String c (before_plus rest)
  end.

(** [piece_values] of [_evaluate_position]. *)
Definition piece_values (t : PieceType) : Z :=
  match t with
  | PAWN => 100 | KNIGHT => 320 | BISHOP => 330
  | ROOK => 500 | QUEEN => 900 | KING => 0
  end.

(** [chess.SQUARES]. *)
Definition SQUARES : list Square := Z.of_nat <$> seq 0 64.

(** The loop of [_evaluate_position]: [(white_material, black_material)]
    after the squares [sqs]. *)
Definition add_material (b : Board) (acc : Z * Z) (sq : Square) : Z * Z :=
  match piece_at b sq with
  | Some piece =>
      let value := piece_values (piece_type piece) in
      if decide (color piece = WHITE) then (acc.1 + value, acc.2)
      else (acc.1, acc.2 + value)
  | None => acc
  end.

Definition material_count (b : Board) (sqs : list Square) : Z * Z :=
  foldl (add_material b) (0, 0) sqs.

(** [_evaluate_position]; the division by 100.0 is kept exact. *)
Definition _evaluate_position (b : Board) : Q :=
  let m := material_count b SQUARES in
  Qmake (m.1 - m.2) 100.

Section Ops.
Context `{RulesLibrary} `{Builtins} `{SanLibrary}.

(** [int(headers.get(key, 0))]. *)
Definition elo (h : gmap string string) (key : string) : option Z :=
  match h !! key with
  | Some v => int v
  | None => Some 0
  end.

Definition game_info (h : gmap string string) (w b : Z) (tc : string)
  : GameInfo :=
  mkGameInfo (default "Unknown" (h !! "White")) (default "Unknown" (h !! "Black"))
             w b
             (default "*" (h !! "Result")) (default "" (h !! "Date"))
             (default "" (h !! "Event")) tc
             (default "" (h !! "Opening")) (default "" (h !! "ECO")).

(** [parse_game]; a ValueError ends in [None] like a filtered game. *)
Definition parse_game (game : Game) : option GameInfo :=
  let h := headers game in
  match elo h "WhiteElo" with
  | None => None
  | Some w =>
      match elo h "BlackElo" with
      | None => None
      | Some b =>
          if (w <? 2400) || (b <? 2400) then None
          else
            let tc := default "" (h !! "TimeControl") in
            if contains_plus tc then
              match int (before_plus tc) with
              | None => None
              | Some base_time =>
                  if base_time <? 600 then None else Some (game_info h w b tc)
              end
            else Some (game_info h w b tc)
      end
  end.

(** The loop of [extract_positions] from a board, with [move_number]
    moves already played. *)
Fixpoint extract_from (board : Board) (move_number : Z) (moves : list Move)
  : list PositionData :=
  match moves with
  | [] => []
  | move :: rest =>
      let move_number := move_number + 1 in
      if move_number <=? 10 then extract_from (push board move) move_number rest
      else if Z.of_nat (size (pieces_map (cur board))) <? 10
      then extract_from (push board move) move_number rest
      else
        mkPositionData (fen (cur board)) (uci move) (san (cur board) move)
          move_number
          (match turn (cur board) with WHITE => "white" | BLACK => "black" end)
          (_evaluate_position board)
          (Z.of_nat (size (pieces_map (cur board))))
        :: extract_from (push board move) move_number rest
  end.

(** [list(self.extract_positions(game))]. *)
Definition extract_positions (game : Game) : list PositionData :=
  extract_from (game_board game) 0 (mainline_moves game).

(** The games [parse_game] keeps. *)
Definition kept (games : list Game) : list Game :=
  filter (fun g => is_Some (parse_game g)) games.

(** The counters of [process_files]. *)
Record Counters := mkCounters {
  processed_games : Z;
  skipped_games : Z;
  all_positions : list PositionData
}.

(** The [while] loop of [process_files] on one file; the file is the
    list of games [chess.pgn.read_game] returns from it, one by one, and
    its end is the [None] that breaks the loop. *)
Fixpoint read_file (games : list Game) (max_games : Z) (st : Counters)
  : Counters :=
  match games with
  | [] => st
  | game :: rest =>
      if processed_games st <? max_games then
        match parse_game game with
        | None =>
            read_file rest max_games
              (mkCounters (processed_games st) (skipped_games st + 1)
                          (all_positions st))
        | Some _ =>
            read_file rest max_games
              (mkCounters (processed_games st + 1) (skipped_games st)
                          (all_positions st ++ extract_positions game))
        end
      else st
  end.

(** The [for pgn_file in pgn_files] loop. *)
Fixpoint read_files (pgn_files : list (list Game)) (max_games : Z)
    (st : Counters) : Counters :=
  match pgn_files with
  | [] => st
  | f :: rest =>
      let st' := read_file f max_games st in
      if processed_games st' >=? max_games then st'
      else read_files rest max_games st'
  end.

(** The statistics [process_files] returns, without the two that measure
    time. *)
Record Stats := mkStats {
  st_processed_games : Z;
  st_skipped_games : Z;
  st_total_positions : Z;
  st_pgn_files_processed : Z
}.

(** [process_files] on the files [find_pgn_files] has found: the
    statistics and the rows collected (the rows of the CSV file when one
    is asked for); [None] is the FileNotFoundError. *)
Definition process_files (pgn_files : list (list Game)) (max_games : Z)
  : option (Stats * list PositionData) :=
  match pgn_files with
  | [] => None
  | _ =>
      let st := read_files pgn_files max_games (mkCounters 0 0 []) in
      Some (mkStats (processed_games st) (skipped_games st)
                    (Z.of_nat (length (all_positions st)))
                    (Z.of_nat (length pgn_files)),
            all_positions st)
  end.

(** [create_sample_dataset]. *)
Definition create_sample_dataset (pgn_files : list (list Game))
    (sample_size : Z) : option (Stats * list PositionData) :=
  let estimated_games := sample_size / 20 in
  process_files pgn_files estimated_games.

End Ops.

(** A reader of plain decimal numerals, which [int] reads the same way;
    it knows no other text. *)
Definition digit_value (c : Ascii.ascii) : option Z :=
  let n := Z.of_nat (Ascii.nat_of_ascii c) in
  if (48 <=? n) && (n <=? 57) then Some (n - 48) else None.

Fixpoint digits_value (acc : Z) (s : string) : option Z :=
  match s with
  | EmptyString => Some acc
  | String c rest =>
      match digit_value c with
      | Some d => digits_value (acc * 10 + d) rest
      | None => None
      end
  end.

Definition decimal_int : Builtins := {|
  int := fun s =>
    match s with
    | EmptyString => None
    | _ => digits_value 0 s
    end
|}.

(** Standard notation is not produced: the move text stands in for it. *)
Definition plain_san : SanLibrary := {|
  san := fun _ m => Opening.opening_uci m
|}.

(** Eleven moves of two knights going out and back. *)
Definition knight_dance : list Move :=
  [ chess_Move 6 21; chess_Move 62 45; chess_Move 21 6; chess_Move 45 62;
    chess_Move 6 21; chess_Move 62 45; chess_Move 21 6; chess_Move 45 62;
    chess_Move 6 21; chess_Move 62 45; chess_Move 21 6 ].

Definition rapid_headers : gmap string string :=
  {[ "White" := "A"; "Black" := "B"; "WhiteElo" := "2500";
     "BlackElo" := "2450"; "TimeControl" := "600+5" ]}.

(** A game that passes the filter, one played too fast, one without
    ratings, and one with a bare time control of 60 seconds. *)
Definition rapid_game : Game := mkGame rapid_headers chess_Board knight_dance.

Definition blitz_game : Game :=
  mkGame (<["TimeControl" := "180+2"]> rapid_headers) chess_Board knight_dance.

Definition unrated_game : Game :=
  mkGame {[ "White" := "A"; "Black" := "B" ]} chess_Board knight_dance.

Definition bare_minute_game : Game :=
  mkGame (<["TimeControl" := "60"]> rapid_headers) chess_Board knight_dance.

End DatasetProcessor.

(** The same placement with the colours of all pieces exchanged. *)
Definition swap_color (p : Piece) : Piece :=
  mkPiece (piece_type p) (Opening.flip (color p)).

Definition swap_colors (b : Board) : Board :=
  with_pieces b (swap_color <$> pieces_map (cur b)).

(** * Properties *)

(** ** Material count *)

(** The worth of a piece in [evaluate_board]; the king counts for
    nothing. *)
Definition piece_value (t : PieceType) : Z :=
  match t with
  | PAWN => 100 | KNIGHT => 300 | BISHOP => 300
  | ROOK => 500 | QUEEN => 900 | KING => 0
  end.

(** The worth of everything on the board, both colours together. *)
Definition total_material (b : Board) : Z :=
  foldr Z.add 0
    ((fun e : Z * Piece => piece_value (piece_type e.2))
       <$> map_to_list (pieces_map (cur b))).

(** The double loop of [evaluate_board] over an explicit list of
    occupied squares. *)
Definition material_of (l : list (Z * Piece)) : Z :=
  foldr Z.add 0
    (flat_map (fun tv : PieceType * Z =>
                 map (fun c => Z.of_nat (length (filter (fun e : Z * Piece =>
                                   e.2 = mkPiece tv.1 c) l)) * tv.2)
                     [WHITE; BLACK])
              material_table).

Lemma material_of_nil : material_of [] = 0.
Proof. reflexivity. Qed.

Lemma material_of_cons (e : Z * Piece) (l : list (Z * Piece)) :
  material_of (e :: l) = piece_value (piece_type e.2) + material_of l.
Proof.
  unfold material_of, material_table. cbn [flat_map map app fst snd foldr].
  rewrite !filter_cons.
  destruct e as [sq [t c]]; cbn [snd piece_type].
  destruct t, c; repeat case_decide; try congruence;
    cbn [length piece_value]; lia.
Qed.

Lemma material_of_sum (l : list (Z * Piece)) :
  material_of l =
  foldr Z.add 0 ((fun e : Z * Piece => piece_value (piece_type e.2)) <$> l).
Proof.
  induction l as [|e l IH].
  - apply material_of_nil.
  - rewrite material_of_cons, IH. reflexivity.
Qed.

Section Properties.
Context `{RulesLibrary} `{Oracle}.

Lemma material_total (b : Board) : material b = total_material b.
Proof. apply (material_of_sum (map_to_list (pieces_map (cur b)))). Qed.

(** C10.  On a position that is neither checkmate, stalemate nor
    insufficient material, [evaluate_board] is the summed worth of the
    pieces of both colours (pawn 100, knight 300, bishop 300, rook 500,
    queen 900) when White is to move and minus that sum when Black is;
    on the standard starting position this is 7800. *)
Theorem evaluate_board_material_sum (b : Board) :
  is_checkmate (cur b) = false ->
  is_stalemate (cur b) = false ->
  is_insufficient_material (cur b) = false ->
  evaluate_board b =
    match turn (cur b) with
    | WHITE => total_material b
    | BLACK => - total_material b
    end
  /\ (cur b = cur chess_Board -> evaluate_board b = 7800).
Proof.
  intros Hmate Hstale Hins.
  assert (Hev : evaluate_board b =
                match turn (cur b) with
                | WHITE => total_material b
                | BLACK => - total_material b
                end).
  { unfold evaluate_board. rewrite Hmate, Hstale, Hins. cbn [orb].
    rewrite material_total. destruct (turn (cur b)); reflexivity. }
  split; [exact Hev|].
  intros Hstart. rewrite Hev. unfold total_material. rewrite Hstart.
  vm_compute. reflexivity.
Qed.

(** ** The position store under the handlers *)

Lemma get_stockfish_comparison_store (s : ChessPredictor) (um : string) :
  store (get_stockfish_comparison s um) = store s.
Proof. unfold get_stockfish_comparison. destruct (stockfish_ai s); reflexivity. Qed.

Lemma get_ai_move_store (s : ChessPredictor) :
  store (get_ai_move s) = store s.
Proof.
  unfold get_ai_move. destruct (stockfish_ai s); [|reflexivity].
  destruct (ai_thinking s); reflexivity.
Qed.

Lemma clear_selection_store (s : ChessPredictor) :
  store (clear_selection s) = store s.
Proof. reflexivity. Qed.

Lemma make_move_accepts (s : ChessPredictor) (m : Move) :
  m ∈ legal_moves (cur (board s)) ->
  (make_move s m).1 = true /\
  store (make_move s m).2 =
    (push (board s) m, move_history s ++ [m],
     position_history s ++ [fen (cur (board s))]).
Proof.
  intros Hin. unfold make_move, is_legal.
  rewrite bool_decide_eq_true_2 by exact Hin.
  split; [reflexivity|]. cbn [snd].
  destruct (stockfish_ai s) eqn:Hsf; cbn; rewrite ?Hsf;
    rewrite ?get_stockfish_comparison_store; reflexivity.
Qed.

Lemma make_move_refuses (s : ChessPredictor) (m : Move) :
  m ∉ legal_moves (cur (board s)) -> make_move s m = (false, s).
Proof.
  intros Hout. unfold make_move, is_legal.
  rewrite bool_decide_eq_false_2 by exact Hout. reflexivity.
Qed.

Lemma not_setup (s : ChessPredictor) :
  current_mode s = ANALYSIS_MODE \/ current_mode s = PLAY_MODE ->
  String.eqb (current_mode s) SETUP_MODE = false.
Proof. intros [-> | ->]; reflexivity. Qed.

(** C1.  In Analysis or Play mode, for a (source, destination) pair that
    the rules library reports as legal, the validity test and [make_move]
    both answer true, the move history grows by exactly that one record
    (and the position history by the FEN before the move), and the board
    is the prior board with the move pushed; the same store is what the
    release handler leaves. *)
Theorem make_move_legal (s : ChessPredictor) (src dst : Square) :
  current_mode s = ANALYSIS_MODE \/ current_mode s = PLAY_MODE ->
  chess_Move src dst ∈ legal_moves (cur (board s)) ->
  let m := chess_Move src dst in
  let r := make_move s m in
  is_valid_move s src dst = true /\ r.1 = true
  /\ move_history r.2 = move_history s ++ [m]
  /\ length (move_history r.2) = S (length (move_history s))
  /\ position_history r.2 = position_history s ++ [fen (cur (board s))]
  /\ board r.2 = push (board s) m
  /\ cur (board r.2) = apply_move (cur (board s)) m
  /\ store (drop_piece s src dst) = store r.2.
Proof.
  intros Hmode Hin m r.
  destruct (make_move_accepts s m Hin) as [Hok Hst].
  fold r in Hok, Hst. unfold store in Hst.
  injection Hst as Hb Hm Hp.
  assert (Hvalid : is_valid_move s src dst = true).
  { unfold is_valid_move, is_legal. rewrite (not_setup s Hmode).
    apply bool_decide_eq_true_2. exact Hin. }
  repeat split; try assumption.
  - rewrite Hm, length_app. cbn. lia.
  - rewrite Hb. reflexivity.
  - unfold drop_piece. rewrite Hvalid, (not_setup s Hmode).
    fold m. fold r. rewrite Hok.
    destruct (_ && _); [apply get_ai_move_store | reflexivity].
Qed.

(** C2.  For a pair the rules library rejects, [make_move] answers false
    and returns the state it was given; outside Setup the validity test
    answers false and the release handler ends normally with board, move
    history and position history as they were. *)
Theorem make_move_illegal (s : ChessPredictor) (src dst : Square) :
  chess_Move src dst ∉ legal_moves (cur (board s)) ->
  make_move s (chess_Move src dst) = (false, s)
  /\ (current_mode s = ANALYSIS_MODE \/ current_mode s = PLAY_MODE ->
      is_valid_move s src dst = false
      /\ drop_piece s src dst = s
      /\ forall pos, dragging s = true -> selected_piece s = Some src ->
           get_square_from_pos pos = Some dst ->
           exists s', mouse_button_up s pos = Some s' /\ store s' = store s).
Proof.
  intros Hout. split; [apply make_move_refuses; exact Hout|].
  intros Hmode.
  assert (Hvalid : is_valid_move s src dst = false).
  { unfold is_valid_move, is_legal. rewrite (not_setup s Hmode).
    apply bool_decide_eq_false_2. exact Hout. }
  assert (Hdrop : drop_piece s src dst = s).
  { unfold drop_piece. rewrite Hvalid. reflexivity. }
  repeat split; try assumption.
  intros pos Hdrag Hsel Hsq. unfold mouse_button_up.
  rewrite Hdrag, Hsq, Hsel, Hdrop. eexists. split; reflexivity.
Qed.

(** ** Setup mode *)






Lemma board_square_left_of_panel (pos : Z * Z) (sq : Square) :
  get_square_from_pos pos = Some sq -> (pos.1 >=? CONTROL_PANEL_X) = false.
Proof.
  unfold get_square_from_pos, CONTROL_PANEL_X, BOARD_OFFSET_X, BOARD_SIZE.
  destruct (_ || _) eqn:Hout; [discriminate|]. intros _.
  apply orb_false_elim in Hout as [Hout _].
  apply orb_false_elim in Hout as [Hout _].
  apply orb_false_elim in Hout as [_ Hx]. lia.
Qed.

(** C4 as the program has it.  In Setup mode a press on an empty square
    selects nothing, and the release that follows does nothing: the
    state, board included, is what it was.  [is_valid_move] itself (in
    both classes) never looks at the source square: it refuses exactly
    the destinations that hold a king. *)
Theorem setup_empty_source (s : ChessPredictor) (pos pos_up : Z * Z)
    (sq : Square) :
  current_mode s = SETUP_MODE ->
  dragging s = false ->
  get_square_from_pos pos = Some sq ->
  piece_at (board s) sq = None ->
  mouse_button_down s pos = s
  /\ mouse_button_up (mouse_button_down s pos) pos_up = Some s
  /\ (forall dst, is_valid_move s sq dst = negb (holds_king (board s) dst))
  /\ (forall g dst, ChessGUI.setup_mode g = true ->
        ChessGUI.is_valid_move g sq dst = negb (holds_king (ChessGUI.board g) dst)).
Proof.
  intros Hmode Hdrag Hsq Hempty.
  assert (Hdown : mouse_button_down s pos = s).
  { unfold mouse_button_down.
    rewrite (board_square_left_of_panel pos sq Hsq), Hsq, Hmode, Hempty.
    reflexivity. }
  split; [exact Hdown|]. rewrite Hdown.
  split; [unfold mouse_button_up; rewrite Hdrag; reflexivity|].
  split.
  - intros dst. unfold is_valid_move. rewrite Hmode. cbn.
    destruct (holds_king (board s) dst); reflexivity.
  - intros g dst Hg. unfold ChessGUI.is_valid_move. rewrite Hg.
    destruct (holds_king (ChessGUI.board g) dst); reflexivity.
Qed.

(** The same gesture in [ChessGUI]. *)
Lemma ChessGUI_empty_source (g : ChessGUI.t) (pos pos_up : Z * Z) (sq : Square) :
  ChessGUI.dragging g = false ->
  ChessGUI.get_square_from_pos pos = Some sq ->
  piece_at (ChessGUI.board g) sq = None ->
  ChessGUI.mouse_button_down g pos = g
  /\ ChessGUI.mouse_button_up (ChessGUI.mouse_button_down g pos) pos_up = Some g.
Proof.
  intros Hdrag Hsq Hempty.
  assert (Hdown : ChessGUI.mouse_button_down g pos = g)
    by (unfold ChessGUI.mouse_button_down; rewrite Hsq, Hempty; reflexivity).
  split; [exact Hdown|]. rewrite Hdown.
  unfold ChessGUI.mouse_button_up. rewrite Hdrag. reflexivity.
Qed.

(** ** Mode buttons *)


(** ** The move-rank comparison *)




(** ** Engine queries without an answer *)



Lemma ai_step_empty_answer (s : ChessPredictor) :
  ai_step s (AiGot []) =
    (set_ai_thinking
       (set_last_ai_eval (set_last_ai_move s (Some "No moves")) None) false,
     AiDone).
Proof. reflexivity. Qed.

Lemma ai_step_raised (s : ChessPredictor) :
  ai_step s AiRaised =
    (set_ai_thinking
       (set_last_ai_eval (set_last_ai_move s (Some "AI Error")) None) false,
     AiDone).
Proof. reflexivity. Qed.


(** ** Supporting facts *)

(** [pop] undoes [push]: what [comparison_worker] hands to the engine is
    the position before the move. *)
Lemma pop_push (b : Board) (m : Move) : pop (push b m) = Some b.
Proof.
  unfold pop, push. cbn [state_stack move_stack].
  rewrite last_snoc, !removelast_last. destruct b; reflexivity.
Qed.

Lemma comparison_queries_prior_position (s : ChessPredictor) (m : Move)
    (e : Stockfish) :
  stockfish_ai s = Some e ->
  cmp_step (set_board s (push (board s) m)) (uci m) CmpStart =
    (set_stockfish_ai (set_board s (push (board s) m))
       (Some (set_fen_position e (fen (cur (board s))))), CmpQuery).
Proof.
  intros Hsf. unfold cmp_step. cbn [board set_board stockfish_ai].
  rewrite pop_push, Hsf. reflexivity.
Qed.

(** After Reset the histories are empty and the board has no move to take
    back. *)
Lemma reset_position_clears_history (s : ChessPredictor) :
  store (click_button s reset_position) = (chess_Board, [], [])
  /\ pop (board (click_button s reset_position)) = None.
Proof. split; reflexivity. Qed.

Lemma make_move_keeps_suggestion (s : ChessPredictor) (m : Move) :
  last_ai_move (make_move s m).2 = last_ai_move s.
Proof.
  unfold make_move. destruct (is_legal (board s) m); [|reflexivity].
  cbn [snd]. cbn [stockfish_ai set_board set_position_history set_move_history].
  unfold get_stockfish_comparison.
  cbn [stockfish_ai set_board set_position_history set_move_history].
  destruct (stockfish_ai s); reflexivity.
Qed.

(** The worker publishes the move it selected from a non-empty answer
    whatever the state it finds: no field of the state is compared with
    the position the answer was computed for. *)
Lemma ai_publish_unconditional (s : ChessPredictor) (md : TopMove)
    (rest : list TopMove) :
  exists sel,
    (md :: rest) !! Z.to_nat (Z.min 9 (Z.of_nat (length (md :: rest)) - 1))
      = Some sel
    /\ last_ai_move (ai_publish s (md :: rest)) = Some (Move_ sel).
Proof.
  destruct (lookup_lt_is_Some_2 (md :: rest)
              (Z.to_nat (Z.min 9 (Z.of_nat (length (md :: rest)) - 1))))
    as [sel Hsel].
  { cbn [length]. lia. }
  exists sel. split; [exact Hsel|].
  unfold ai_publish. rewrite Hsel.
  destruct (_ && _); [|reflexivity].
  destruct (from_uci (Move_ sel)); [|reflexivity].
  destruct (is_legal _ _); [|reflexivity].
  rewrite make_move_keeps_suggestion. reflexivity.
Qed.

End Properties.

(** * Further properties of the code *)

Section Geometry.
Context `{RulesLibrary}.

Lemma collidepoint_spec (r : Rect) (pos : Z * Z) :
  collidepoint r pos = true <->
  (left r <= pos.1 < left r + width r) /\ (top r <= pos.2 < top r + height r).
Proof.
  unfold collidepoint. rewrite !andb_true_iff, !Z.leb_le, !Z.ltb_lt. lia.
Qed.

Lemma div_SQUARE_SIZE (a k : Z) :
  k * 80 <= a < k * 80 + 80 -> a / SQUARE_SIZE = k.
Proof.
  intros Ha. change SQUARE_SIZE with 80. symmetry.
  apply (Z.div_unique_pos a 80 k (a - k * 80)); lia.
Qed.

(** X1.  What is clicked is what is drawn: a point inside the rectangle
    that [draw_board] paints for row [row], column [col] is mapped by
    [get_square_from_pos] to the square that rectangle stands for. *)
Theorem clicked_square_is_drawn_square (row col : Z) (pos : Z * Z) :
  0 <= row < 8 -> 0 <= col < 8 ->
  collidepoint (drawn_square row col).2 pos = true ->
  get_square_from_pos pos = Some (drawn_square row col).1.
Proof.
  intros Hrow Hcol Hin. apply collidepoint_spec in Hin.
  unfold drawn_square in *. cbn [fst snd left top width height] in Hin.
  change SQUARE_SIZE with 80 in Hin.
  unfold BOARD_OFFSET_X, BOARD_OFFSET_Y in Hin.
  unfold get_square_from_pos, BOARD_OFFSET_X, BOARD_OFFSET_Y, BOARD_SIZE.
  cbn [fst snd].
  assert (Hout : (pos.1 - 40 <? 0) || (pos.1 - 40 >=? 640)
                 || (pos.2 - 40 <? 0) || (pos.2 - 40 >=? 640) = false).
  { rewrite !orb_false_iff, !Z.ltb_ge, !Z.geb_leb, !Z.leb_gt. lia. }
  rewrite Hout.
  rewrite (div_SQUARE_SIZE (pos.1 - 40) col) by lia.
  rewrite (div_SQUARE_SIZE (pos.2 - 40) row) by lia.
  reflexivity.
Qed.

(** X2.  Every square [get_square_from_pos] returns is one of the 64
    squares, and the point lies in the rectangle drawn for it; the centre
    of a square, where dots and pieces are drawn, is mapped back to the
    square. *)
Theorem get_square_from_pos_sound (pos : Z * Z) (sq : Square) :
  get_square_from_pos pos = Some sq ->
  0 <= sq <= 63
  /\ (exists row col, 0 <= row < 8 /\ 0 <= col < 8
        /\ (drawn_square row col).1 = sq
        /\ collidepoint (drawn_square row col).2 pos = true)
  /\ get_square_from_pos (square_center sq) = Some sq.
Proof.
  unfold get_square_from_pos, BOARD_OFFSET_X, BOARD_OFFSET_Y, BOARD_SIZE.
  destruct (_ || _) eqn:Hout; [discriminate|]. intros [= <-].
  rewrite !orb_false_iff, !Z.ltb_ge, !Z.geb_leb, !Z.leb_gt in Hout.
  change SQUARE_SIZE with 80.
  set (c := (pos.1 - 40) / 80). set (r := (pos.2 - 40) / 80).
  assert (Hc : 0 <= c < 8).
  { unfold c. split; [apply Z.div_pos; lia | apply Z.div_lt_upper_bound; lia]. }
  assert (Hr : 0 <= r < 8).
  { unfold r. split; [apply Z.div_pos; lia | apply Z.div_lt_upper_bound; lia]. }
  assert (Hcm : c * 80 <= pos.1 - 40 < c * 80 + 80).
  { unfold c. pose proof (Z.div_mod (pos.1 - 40) 80 ltac:(lia)).
    pose proof (Z.mod_pos_bound (pos.1 - 40) 80 ltac:(lia)). lia. }
  assert (Hrm : r * 80 <= pos.2 - 40 < r * 80 + 80).
  { unfold r. pose proof (Z.div_mod (pos.2 - 40) 80 ltac:(lia)).
    pose proof (Z.mod_pos_bound (pos.2 - 40) 80 ltac:(lia)). lia. }
  split; [unfold square; lia|]. split.
  - exists r, c. split; [lia|]. split; [lia|]. split; [reflexivity|].
    apply collidepoint_spec. unfold drawn_square.
    cbn [fst snd left top width height].
    change SQUARE_SIZE with 80. unfold BOARD_OFFSET_X, BOARD_OFFSET_Y. lia.
  - assert (Hf : square_file (square c (7 - r)) = c).
    { unfold square_file, square. change 7 with (Z.ones 3) at 2.
      rewrite Z.land_ones by lia. change (2 ^ 3) with 8.
      rewrite Z.add_comm, Z.mod_add by lia. apply Z.mod_small. lia. }
    assert (Hk : square_rank (square c (7 - r)) = 7 - r).
    { unfold square_rank, square. rewrite Z.shiftr_div_pow2 by lia.
      change (2 ^ 3) with 8. rewrite Z.add_comm, Z.div_add by lia.
      rewrite Z.div_small by lia. lia. }
    unfold square_center. rewrite Hf, Hk.
    unfold get_square_from_pos, BOARD_OFFSET_X, BOARD_OFFSET_Y, BOARD_SIZE.
    cbn [fst snd]. change SQUARE_SIZE with 80. change (80 / 2) with 40.
    assert (Hin : (40 + c * 80 + 40 - 40 <? 0) || (40 + c * 80 + 40 - 40 >=? 640)
                  || (40 + (7 - (7 - r)) * 80 + 40 - 40 <? 0)
                  || (40 + (7 - (7 - r)) * 80 + 40 - 40 >=? 640) = false).
    { rewrite !orb_false_iff, !Z.ltb_ge, !Z.geb_leb, !Z.leb_gt. lia. }
    rewrite Hin.
    replace ((40 + c * 80 + 40 - 40) / 80) with c
      by (apply (Z.div_unique_pos _ 80 c 40); lia).
    replace ((40 + (7 - (7 - r)) * 80 + 40 - 40) / 80) with r
      by (apply (Z.div_unique_pos _ 80 r 40); lia).
    reflexivity.
Qed.

(** Case analysis on a member of [buttons]. *)
Ltac each_button Hb tac :=
  unfold buttons, CONTROL_PANEL_X, BOARD_SIZE, BOARD_OFFSET_X in Hb;
  rewrite !elem_of_cons, elem_of_nil in Hb;
  repeat (destruct Hb as [Hb|Hb]; [injection Hb as -> ->; tac|]);
  destruct Hb.

(** X3.  No button hides another and none lies on the board: a point
    inside the rectangle of a button is found by [button_at] as that
    button, lies in the control panel, and is on no square. *)
Theorem button_at_unambiguous (pos : Z * Z) (b : Button) (r : Rect) :
  (b, r) ∈ buttons ->
  collidepoint r pos = true ->
  button_at pos = Some b
  /\ CONTROL_PANEL_X <= pos.1
  /\ get_square_from_pos pos = None.
Proof.
  intros Hb Hin. apply collidepoint_spec in Hin.
  assert (Hpanel : CONTROL_PANEL_X <= pos.1).
  { unfold CONTROL_PANEL_X, BOARD_SIZE, BOARD_OFFSET_X in *.
    each_button Hb ltac:(cbn [left top width height] in Hin; lia). }
  split; [|split; [exact Hpanel|]].
  - unfold button_at, buttons. cbn [List.find snd].
    unfold CONTROL_PANEL_X, BOARD_SIZE, BOARD_OFFSET_X in *.
    repeat match goal with
    | |- context [collidepoint ?r0 pos] =>
        let E := fresh "E" in
        destruct (collidepoint r0 pos) eqn:E;
        [ apply collidepoint_spec in E; cbn [left top width height] in E;
          each_button Hb ltac:(cbn [left top width height] in Hin;
                               first [reflexivity | exfalso; lia])
        | apply not_true_iff_false in E; rewrite collidepoint_spec in E;
          cbn [left top width height] in E ]
    end.
    exfalso.
    each_button Hb ltac:(cbn [left top width height] in Hin; lia).
  - unfold get_square_from_pos, BOARD_OFFSET_X, BOARD_SIZE.
    unfold CONTROL_PANEL_X, BOARD_SIZE, BOARD_OFFSET_X in Hpanel.
    assert (Hx : (pos.1 - 40 >=? 640) = true)
      by (rewrite Z.geb_leb, Z.leb_le; lia).
    rewrite Hx, orb_true_r. reflexivity.
Qed.

End Geometry.

Section Buttons.
Context `{RulesLibrary} `{Oracle}.

(** X4.  A castling checkbox only flips its own flag of
    [castling_rights]: the board (and with it the castling field of the
    FEN the engine and the rules library see) and the histories are not
    touched, the flags do change, and a second click restores the state
    exactly. *)
Theorem castling_checkbox_effect (s : ChessPredictor) (b : Button) :
  b ∈ [white_kingside; white_queenside; black_kingside; black_queenside] ->
  store (click_button s b) = store s
  /\ castling_KQkq (cur (board (click_button s b))) = castling_KQkq (cur (board s))
  /\ castling_rights (click_button s b) <> castling_rights s
  /\ click_button (click_button s b) b = s.
Proof.
  intros Hb. rewrite !elem_of_cons, elem_of_nil in Hb.
  destruct s as [bd sel dr vm md ac [wk wq bk bq] pv sf th lm le sc sq mh ph thr].
  destruct Hb as [-> | [-> | [-> | [-> | []]]]]; cbn;
    (split; [reflexivity|]); (split; [reflexivity|]);
    (split; [|rewrite negb_involutive; reflexivity]).
  - destruct wk; discriminate.
  - destruct wq; discriminate.
  - destruct bk; discriminate.
  - destruct bq; discriminate.
Qed.

(** The two side-to-move buttons set [active_color] and the board's
    turn together; pieces, castling field, move stack and both histories
    stay, and clicking the same button again changes nothing more. *)
Theorem to_move_button_effect (s : ChessPredictor) (c : Color) :
  let s' := click_button s (to_move_button c) in
  active_color s' = c
  /\ turn (cur (board s')) = c
  /\ pieces_map (cur (board s')) = pieces_map (cur (board s))
  /\ move_stack (board s') = move_stack (board s)
  /\ state_stack (board s') = state_stack (board s)
  /\ move_history s' = move_history s
  /\ position_history s' = position_history s
  /\ click_button s' (to_move_button c) = s'.
Proof. destruct c; cbn; repeat split. Qed.

(** X5.  Clear Board and Reset empty both histories, the comparison and
    the suggested move, and put the empty, respectively the starting,
    board in place; they leave the stored evaluation, the highlighted
    suggestion square, the mode, the selection and every background
    thread as they were, and a second click changes nothing more. *)
Theorem clear_and_reset_effect (s : ChessPredictor) (b : Button) :
  b = clear_board \/ b = reset_position ->
  let s' := click_button s b in
  board s' = (if decide (b = clear_board) then chess_Board_empty else chess_Board)
  /\ (b = clear_board -> forall sq, piece_at (board s') sq = None)
  /\ move_history s' = [] /\ position_history s' = []
  /\ stockfish_comparison s' = None /\ last_ai_move s' = None
  /\ last_ai_eval s' = last_ai_eval s
  /\ ai_suggested_square s' = ai_suggested_square s
  /\ threads s' = threads s
  /\ ai_thinking s' = ai_thinking s
  /\ current_mode s' = current_mode s
  /\ selected_piece s' = selected_piece s
  /\ dragging s' = dragging s
  /\ click_button s' b = s'.
Proof.
  intros [-> | ->]; cbn; repeat split; discriminate.
Qed.

End Buttons.

Section Runs_properties.
Context `{RulesLibrary} `{Oracle}.

Lemma make_move_ui (s : ChessPredictor) (m : Move) :
  ui (make_move s m).2 = ui s.
Proof.
  unfold make_move. destruct (is_legal (board s) m); [|reflexivity].
  cbn [snd]. cbn [stockfish_ai set_board set_position_history set_move_history].
  unfold get_stockfish_comparison.
  cbn [stockfish_ai set_board set_position_history set_move_history].
  destruct (stockfish_ai s); reflexivity.
Qed.

Lemma ai_publish_ui (s : ChessPredictor) (tm : list TopMove) :
  ui (ai_publish s tm) = ui s.
Proof.
  unfold ai_publish. destruct tm as [|md rest]; [reflexivity|].
  destruct (_ !! _) as [sel|]; [|reflexivity].
  destruct (_ && _); [|reflexivity].
  destruct (from_uci (Move_ sel)); [|reflexivity].
  destruct (is_legal _ _); [|reflexivity].
  rewrite make_move_ui. reflexivity.
Qed.

Lemma ai_step_ui (s : ChessPredictor) (pc : AiPc) :
  ui (ai_step s pc).1 = ui s.
Proof.
  destruct pc as [| |tm| |]; cbn [ai_step].
  - cbn [stockfish_ai set_ai_thinking]. destruct (stockfish_ai s); reflexivity.
  - destruct (stockfish_ai s) as [e|]; [|reflexivity].
    destruct (get_top_moves e 12); reflexivity.
  - cbn [fst]. unfold ai_finally.
    change (ui (set_ai_thinking (ai_publish s tm) false))
      with (ui (ai_publish s tm)).
    apply ai_publish_ui.
  - reflexivity.
  - reflexivity.
Qed.

Lemma cmp_step_frame (s : ChessPredictor) (um : string) (pc : CmpPc) :
  ui (cmp_step s um pc).1 = ui s /\ store (cmp_step s um pc).1 = store s.
Proof.
  destruct pc as [| |tm|]; cbn [cmp_step].
  - destruct (pop (board s)); [|split; reflexivity].
    destruct (stockfish_ai s); split; reflexivity.
  - destruct (stockfish_ai s) as [e|]; [|split; reflexivity].
    destruct (get_top_moves e 5); split; reflexivity.
  - split; reflexivity.
  - split; reflexivity.
Qed.

Lemma step_thread_ui (i : nat) (s : ChessPredictor) :
  ui (step_thread i s) = ui s.
Proof.
  unfold step_thread. destruct (threads s !! i) as [[pc|um pc]|]; [| |reflexivity].
  - cbn zeta. change (ui (set_threads ?x ?t)) with (ui x). apply ai_step_ui.
  - cbn zeta. change (ui (set_threads ?x ?t)) with (ui x).
    apply (cmp_step_frame s um pc).
Qed.

Lemma make_move_store_illegal_or_pushed (s : ChessPredictor) (m : Move) :
  store (make_move s m).2 = store s
  \/ store (make_move s m).2
     = (push (board s) m, move_history s ++ [m],
        position_history s ++ [fen (cur (board s))]).
Proof.
  destruct (decide (m ∈ legal_moves (cur (board s)))) as [Hin|Hout].
  - right. apply make_move_accepts. exact Hin.
  - left. rewrite make_move_refuses by exact Hout. reflexivity.
Qed.

Lemma ai_publish_store (s : ChessPredictor) (tm : list TopMove) :
  store (ai_publish s tm) = store s
  \/ (String.eqb (current_mode s) PLAY_MODE && play_vs_ai s = true
      /\ exists m,
           store (ai_publish s tm)
           = (push (board s) m, move_history s ++ [m],
              position_history s ++ [fen (cur (board s))])).
Proof.
  unfold ai_publish. destruct tm as [|md rest]; [left; reflexivity|].
  destruct (_ !! _) as [sel|]; [|left; reflexivity].
  cbn [current_mode play_vs_ai set_ai_suggested_square set_last_ai_eval
       set_last_ai_move].
  destruct (String.eqb (current_mode s) PLAY_MODE && play_vs_ai s) eqn:Hplay;
    [|left; reflexivity].
  destruct (from_uci (Move_ sel)) as [m|]; [|left; reflexivity].
  destruct (is_legal _ m); [|left; reflexivity].
  match goal with
  | |- context [make_move ?x m] =>
      destruct (make_move_store_illegal_or_pushed x m) as [Hs|Hs]
  end.
  - left. rewrite Hs. reflexivity.
  - right. split; [reflexivity|]. exists m. rewrite Hs. reflexivity.
Qed.

(** X6.  A background thread never touches what the user has set or
    selected (selection, drag, highlights, mode, side, castling flags,
    the VS AI switch).  [comparison_worker] never touches the board or
    the histories either, and [ai_worker] does so only in Play mode with
    VS AI on, where it appends exactly one move. *)
Theorem step_thread_frame (i : nat) (s : ChessPredictor) :
  ui (step_thread i s) = ui s
  /\ (forall um pc, threads s !! i = Some (comparison_worker um pc) ->
        store (step_thread i s) = store s)
  /\ (store (step_thread i s) = store s
      \/ (current_mode s = PLAY_MODE /\ play_vs_ai s = true
          /\ (exists tm, threads s !! i = Some (ai_worker (AiGot tm)))
          /\ exists m,
               store (step_thread i s)
               = (push (board s) m, move_history s ++ [m],
                  position_history s ++ [fen (cur (board s))]))).
Proof.
  split; [apply step_thread_ui|]. split.
  - intros um pc Hth. unfold step_thread. rewrite Hth. cbn zeta.
    change (store (set_threads ?x ?t)) with (store x).
    apply (cmp_step_frame s um pc).
  - unfold step_thread.
    destruct (threads s !! i) as [[pc|um pc]|] eqn:Hth; [| |left; reflexivity].
    + cbn zeta. change (store (set_threads ?x ?t)) with (store x).
      destruct pc as [| |tm| |]; cbn [ai_step fst].
      * left. cbn [stockfish_ai set_ai_thinking].
        destruct (stockfish_ai s); reflexivity.
      * left. destruct (stockfish_ai s) as [e|]; [|reflexivity].
        destruct (get_top_moves e 12); reflexivity.
      * unfold ai_finally.
        change (store (set_ai_thinking (ai_publish s tm) false))
          with (store (ai_publish s tm)).
        destruct (ai_publish_store s tm) as [Hs | (Hplay & m & Hs)];
          [left; exact Hs|].
        right. apply andb_true_iff in Hplay as [Hmode Hvs].
        apply String.eqb_eq in Hmode.
        repeat split; [exact Hmode | exact Hvs | by exists tm | by exists m].
      * left. reflexivity.
      * left. reflexivity.
    + left. cbn zeta. change (store (set_threads ?x ?t)) with (store x).
      apply (cmp_step_frame s um pc).
Qed.







Lemma get_ai_move_selection (s : ChessPredictor) :
  selected_piece (get_ai_move s) = selected_piece s
  /\ dragging (get_ai_move s) = dragging s.
Proof.
  unfold get_ai_move. destruct (stockfish_ai s); [|split; reflexivity].
  destruct (ai_thinking s); split; reflexivity.
Qed.

Lemma click_button_selection (s : ChessPredictor) (b : Button) :
  selected_piece (click_button s b) = selected_piece s
  /\ dragging (click_button s b) = dragging s.
Proof.
  destruct b; try (split; reflexivity). apply get_ai_move_selection.
Qed.

Lemma mouse_button_down_consistent (s : ChessPredictor) (pos : Z * Z) :
  dragging s = false -> drag_consistent true (mouse_button_down s pos).
Proof.
  intros Hdrag. split; [|discriminate].
  unfold mouse_button_down.
  destruct (pos.1 >=? CONTROL_PANEL_X).
  - unfold handle_button_click. destruct (button_at pos) as [b|]; cbn [snd].
    + destruct (click_button_selection s b) as [_ ->]. congruence.
    + congruence.
  - destruct (get_square_from_pos pos) as [sq|]; [|congruence].
    destruct (String.eqb (current_mode s) SETUP_MODE).
    + destruct (piece_at (board s) sq); [intros _; by eexists | congruence].
    + destruct (piece_at (board s) sq) as [p|]; [|cbn; congruence].
      destruct (bool_decide _); [intros _; by eexists | cbn; congruence].
Qed.

Lemma mouse_button_up_consistent (s : ChessPredictor) (pos : Z * Z) :
  (dragging s = true -> is_Some (selected_piece s)) ->
  exists s', mouse_button_up s pos = Some s' /\ dragging s' = false.
Proof.
  intros Hsel. unfold mouse_button_up.
  destruct (dragging s) eqn:Hdrag; [|by exists s].
  destruct (Hsel eq_refl) as [src ->].
  destruct (get_square_from_pos pos); eexists; split; reflexivity.
Qed.

(** X8.  When the left button goes down and up in turn, the event loop
    never raises: whenever a release arrives during a drag a square is
    selected, so the placement code is never run on [None], whatever the
    threads do in between. *)
Theorem event_loop_never_raises (evs : list Event) (pressed : bool)
    (s : ChessPredictor) :
  drag_consistent pressed s ->
  alternating pressed evs = true ->
  is_Some (run_events evs s).
Proof.
  revert pressed s. induction evs as [|e rest IH]; intros pressed s Hs Halt.
  - by eexists.
  - cbn [run_events]. destruct e as [pos|pos|i]; cbn [alternating handle] in *.
    + apply andb_true_iff in Halt as [Hup Halt].
      apply negb_true_iff in Hup. subst pressed.
      apply (IH true); [|exact Halt].
      apply mouse_button_down_consistent. apply Hs. reflexivity.
    + apply andb_true_iff in Halt as [_ Halt].
      destruct (mouse_button_up_consistent s pos (proj1 Hs)) as (s' & -> & Hd).
      apply (IH false); [|exact Halt]. split; congruence.
    + apply (IH pressed); [|exact Halt].
      pose proof (step_thread_ui i s) as Hui. unfold ui in Hui.
      injection Hui as Hsel Hdr _ _ _ _ _.
      unfold drag_consistent. rewrite Hsel, Hdr. exact Hs.
Qed.

End Runs_properties.

Section Selection_and_suggestion.
Context `{RulesLibrary} `{Oracle}.


Lemma make_move_keeps_eval (s : ChessPredictor) (m : Move) :
  last_ai_eval (make_move s m).2 = last_ai_eval s.
Proof.
  unfold make_move. destruct (is_legal (board s) m); [|reflexivity].
  cbn [snd]. cbn [stockfish_ai set_board set_position_history set_move_history].
  unfold get_stockfish_comparison.
  cbn [stockfish_ai set_board set_position_history set_move_history].
  destruct (stockfish_ai s); reflexivity.
Qed.

(** X10.  From a non-empty answer the worker publishes the tenth entry
    when there are at least ten and the last entry otherwise, with that
    entry's centipawn score over 100 as evaluation (0 when the score is
    missing). *)
Theorem suggestion_is_tenth_or_last (s : ChessPredictor) (tm : list TopMove) :
  tm <> [] ->
  exists sel,
    (if decide (10 <= length tm)%nat then tm !! 9%nat else last tm) = Some sel
    /\ last_ai_move (ai_publish s tm) = Some (Move_ sel)
    /\ last_ai_eval (ai_publish s tm)
       = Some (Qmake (default 0 (Centipawn sel)) 100).
Proof.
  intros Hne.
  assert (Hlen : (0 < length tm)%nat) by (destruct tm; [congruence | cbn; lia]).
  assert (Hidx : Z.to_nat (Z.min 9 (Z.of_nat (length tm) - 1))
                 = if decide (10 <= length tm)%nat then 9%nat
                   else pred (length tm)).
  { destruct (decide (10 <= length tm)%nat); lia. }
  assert (Hsel : is_Some (tm !! Z.to_nat (Z.min 9 (Z.of_nat (length tm) - 1)))).
  { apply lookup_lt_is_Some_2. lia. }
  destruct Hsel as [sel Hsel]. exists sel. split.
  - rewrite Hidx in Hsel. destruct (decide (10 <= length tm)%nat);
      [exact Hsel | rewrite last_lookup; exact Hsel].
  - assert (Hcp : match Centipawn sel with
                  | Some c => if c =? 0 then 0 else c
                  | None => 0
                  end = default 0 (Centipawn sel)).
    { destruct (Centipawn sel) as [c|]; [|reflexivity]. cbn.
      destruct (Z.eqb_spec c 0); congruence. }
    unfold ai_publish. destruct tm as [|md rest]; [congruence|].
    rewrite Hsel, Hcp.
    destruct (_ && _); [|split; reflexivity].
    destruct (from_uci (Move_ sel)); [|split; reflexivity].
    destruct (is_legal _ _); [|split; reflexivity].
    split; [rewrite make_move_keeps_suggestion | rewrite make_move_keeps_eval];
      reflexivity.
Qed.

Lemma total_material_nonneg (b : Board) : 0 <= total_material b.
Proof.
  unfold total_material.
  induction (map_to_list (pieces_map (cur b))) as [|e l IH]; [reflexivity|].
  cbn. destruct (piece_type e.2); cbn; lia.
Qed.

(** X11.  The sign of [evaluate_board] tells who is to move, not who is
    ahead: on a checkmate it is -9999 for White to move and 9999 for
    Black, on a stalemate or with insufficient material it is 0, and
    otherwise it is never negative with White to move and never positive
    with Black to move. *)
Theorem evaluate_board_sign (b : Board) :
  (is_checkmate (cur b) = true ->
     evaluate_board b = match turn (cur b) with WHITE => -9999 | BLACK => 9999 end)
  /\ (is_checkmate (cur b) = false ->
      (is_stalemate (cur b) || is_insufficient_material (cur b) = true ->
       evaluate_board b = 0)
      /\ match turn (cur b) with
         | WHITE => 0 <= evaluate_board b
         | BLACK => evaluate_board b <= 0
         end).
Proof.
  unfold evaluate_board. split.
  - intros ->. destruct (turn (cur b)); reflexivity.
  - intros ->. split; [intros ->; reflexivity|].
    pose proof (total_material_nonneg b) as Hnn.
    rewrite <- material_total in Hnn.
    generalize dependent (material b). intros mat Hnn.
    destruct (is_stalemate (cur b) || is_insufficient_material (cur b));
      destruct (turn (cur b)); cbn; repeat case_decide; try congruence; lia.
Qed.

End Selection_and_suggestion.

Section Dataset.
Context `{RulesLibrary} `{Builtins} `{SanLibrary}.
Import DatasetProcessor.

(** X12.  [parse_game] returns a record exactly when both Elo headers
    read as numbers of at least 2400 (a missing header reads as 0) and,
    if the time control contains a '+', the text before the first '+'
    reads as a number of at least 600; the record then carries those
    Elos, the time control as written, and the other headers with their
    defaults. *)
Theorem parse_game_accepts_iff (game : Game) (info : GameInfo) :
  parse_game game = Some info <->
  exists w b,
    elo (headers game) "WhiteElo" = Some w
    /\ elo (headers game) "BlackElo" = Some b
    /\ 2400 <= w /\ 2400 <= b
    /\ (contains_plus (default "" (headers game !! "TimeControl")) = true ->
        exists base,
          int (before_plus (default "" (headers game !! "TimeControl")))
            = Some base
          /\ 600 <= base)
    /\ info = game_info (headers game) w b
                (default "" (headers game !! "TimeControl")).
Proof.
  unfold parse_game. cbn zeta.
  set (tc := default "" (headers game !! "TimeControl")).
  split.
  - destruct (elo (headers game) "WhiteElo") as [w|]; [|discriminate].
    destruct (elo (headers game) "BlackElo") as [b|]; [|discriminate].
    destruct (_ || _) eqn:Hlow; [discriminate|].
    apply orb_false_iff in Hlow as [Hw Hb].
    apply Z.ltb_ge in Hw. apply Z.ltb_ge in Hb.
    destruct (contains_plus tc) eqn:Hplus.
    + destruct (int (before_plus tc)) as [base|]; [|discriminate].
      destruct (base <? 600) eqn:Hbase; [discriminate|].
      apply Z.ltb_ge in Hbase. intros [= <-].
      exists w, b. repeat split; try assumption. intros _. by exists base.
    + intros [= <-]. exists w, b. repeat split; try assumption. discriminate.
  - intros (w & b & -> & -> & Hw & Hb & Htc & ->).
    assert (Hlow : (w <? 2400) || (b <? 2400) = false)
      by (rewrite orb_false_iff, !Z.ltb_ge; lia).
    rewrite Hlow. destruct (contains_plus tc); [|reflexivity].
    destruct (Htc eq_refl) as (base & -> & Hbase).
    assert (Hb6 : (base <? 600) = false) by (apply Z.ltb_ge; lia).
    rewrite Hb6. reflexivity.
Qed.

(** X13.  Edge cases of the filter: a game without a WhiteElo or a
    BlackElo header, or with one that is not a number, is skipped; a game
    of two players rated 2400 or more whose time control has no '+'
    (missing, "-", or a bare number of seconds however small) is kept. *)
Theorem parse_game_edges (game : Game) :
  (headers game !! "WhiteElo" = None \/ headers game !! "BlackElo" = None
   \/ elo (headers game) "WhiteElo" = None
   \/ elo (headers game) "BlackElo" = None ->
   parse_game game = None)
  /\ (forall w b,
        elo (headers game) "WhiteElo" = Some w ->
        elo (headers game) "BlackElo" = Some b ->
        2400 <= w -> 2400 <= b ->
        contains_plus (default "" (headers game !! "TimeControl")) = false ->
        is_Some (parse_game game)).
Proof.
  split.
  - intros Hmiss. unfold parse_game. cbn zeta.
    destruct (elo (headers game) "WhiteElo") as [w|] eqn:Hw; [|reflexivity].
    destruct (elo (headers game) "BlackElo") as [b|] eqn:Hb; [|reflexivity].
    destruct Hmiss as [Hm | [Hm | [Hm | Hm]]]; try discriminate.
    + unfold elo in Hw. rewrite Hm in Hw. injection Hw as <-. reflexivity.
    + unfold elo in Hb. rewrite Hm in Hb. injection Hb as <-.
      rewrite orb_true_r. reflexivity.
  - intros w b Hw Hb Hw24 Hb24 Hplus. eexists.
    apply parse_game_accepts_iff. exists w, b.
    repeat split; try assumption. rewrite Hplus. discriminate.
Qed.

Lemma extract_from_rows (moves : list Move) :
  forall (board : Board) (k : Z) (pd : PositionData),
    pd ∈ extract_from board k moves ->
    exists (i : nat) (m : Move),
      moves !! i = Some m
      /\ 10 < k + Z.of_nat i + 1
      /\ (10 <= size (pieces_map (cur (foldl push board (take i moves)))))%nat
      /\ pd = let bi := foldl push board (take i moves) in
              mkPositionData (fen (cur bi)) (uci m) (san (cur bi) m)
                (k + Z.of_nat i + 1)
                (match turn (cur bi) with WHITE => "white" | BLACK => "black" end)
                (_evaluate_position bi)
                (Z.of_nat (size (pieces_map (cur bi)))).
Proof.
  induction moves as [|move rest IH]; intros board k pd Hin; cbn [extract_from] in Hin.
  - apply elem_of_nil in Hin. destruct Hin.
  - assert (Hrest : pd ∈ extract_from (push board move) (k + 1) rest ->
              exists (i : nat) (m : Move),
                (move :: rest) !! i = Some m
                /\ 10 < k + Z.of_nat i + 1
                /\ (10 <= size (pieces_map
                       (cur (foldl push board (take i (move :: rest))))))%nat
                /\ pd = let bi := foldl push board (take i (move :: rest)) in
                        mkPositionData (fen (cur bi)) (uci m) (san (cur bi) m)
                          (k + Z.of_nat i + 1)
                          (match turn (cur bi) with
                           | WHITE => "white" | BLACK => "black" end)
                          (_evaluate_position bi)
                          (Z.of_nat (size (pieces_map (cur bi))))).
    { intros Hr. destruct (IH _ _ _ Hr) as (i & m & Hm & Hn & Hsz & Hpd).
      exists (S i), m. cbn [lookup list_lookup take foldl].
      replace (k + Z.of_nat (S i) + 1) with (k + 1 + Z.of_nat i + 1) by lia.
      auto. }
    destruct (k + 1 <=? 10) eqn:Hk; [auto|].
    destruct (Z.of_nat (size (pieces_map (cur board))) <? 10) eqn:Hsz; [auto|].
    apply elem_of_cons in Hin as [-> | Hin]; [|auto].
    apply Z.leb_gt in Hk. apply Z.ltb_ge in Hsz.
    exists 0%nat, move. cbn [take foldl].
    replace (k + Z.of_nat 0 + 1) with (k + 1) by lia.
    repeat split; [lia | lia].
Qed.

Lemma extract_from_length (moves : list Move) :
  forall (board : Board) (k : Z),
    0 <= k ->
    (length (extract_from board k moves)
     <= length moves - Z.to_nat (10 - k))%nat
    /\ StronglySorted Z.lt (pd_move_number <$> extract_from board k moves)
    /\ Forall (fun n => k < n) (pd_move_number <$> extract_from board k moves).
Proof.
  induction moves as [|move rest IH]; intros board k Hk; cbn [extract_from].
  - repeat split; [cbn; lia | constructor | constructor].
  - destruct (IH (push board move) (k + 1) ltac:(lia)) as (Hlen & Hsort & Hgt).
    assert (Hgt' : Forall (fun n => k < n)
                     (pd_move_number <$> extract_from (push board move) (k + 1) rest)).
    { eapply Forall_impl; [exact Hgt|]. cbn. lia. }
    destruct (k + 1 <=? 10) eqn:Hlow.
    { apply Z.leb_le in Hlow. repeat split; [cbn [length]; lia | exact Hsort | exact Hgt']. }
    apply Z.leb_gt in Hlow.
    destruct (_ <? 10).
    { repeat split; [cbn [length]; lia | exact Hsort | exact Hgt']. }
    rewrite fmap_cons. cbn [pd_move_number length].
    repeat split; [lia | constructor; [exact Hsort | exact Hgt] |
                   constructor; [lia | exact Hgt']].
Qed.

(** X14.  Every row of [extract_positions] describes the position before
    one move of the game: for the move number [n] of the row, [n] is
    above 10, the row's FEN, side to move, evaluation and piece count are
    those of the board after the first [n - 1] moves, that board has at
    least 10 pieces, and the row's move is the [n]-th move. *)
Theorem extract_positions_rows (game : Game) (pd : PositionData) :
  pd ∈ extract_positions game ->
  exists (i : nat) (m : Move),
    mainline_moves game !! i = Some m
    /\ pd_move_number pd = Z.of_nat i + 1
    /\ 10 < pd_move_number pd
    /\ let bi := foldl push (game_board game) (take i (mainline_moves game)) in
       pd_fen pd = fen (cur bi)
       /\ pd_move pd = uci m
       /\ pd_move_san pd = san (cur bi) m
       /\ pd_to_move pd
          = match turn (cur bi) with WHITE => "white" | BLACK => "black" end
       /\ pd_evaluation pd = _evaluate_position bi
       /\ pd_piece_count pd = Z.of_nat (size (pieces_map (cur bi)))
       /\ 10 <= pd_piece_count pd.
Proof.
  intros Hin. unfold extract_positions in Hin.
  destruct (extract_from_rows _ _ _ _ Hin) as (i & m & Hm & Hn & Hsz & ->).
  exists i, m. cbn. repeat split; try assumption; lia.
Qed.

(** X15.  [extract_positions] yields at most one row per move after the
    tenth, in the order of the game (the move numbers of the rows
    increase strictly), and nothing for a game of ten moves or fewer. *)
Theorem extract_positions_count (game : Game) :
  (length (extract_positions game) <= length (mainline_moves game) - 10)%nat
  /\ StronglySorted Z.lt (pd_move_number <$> extract_positions game)
  /\ ((length (mainline_moves game) <= 10)%nat -> extract_positions game = []).
Proof.
  destruct (extract_from_length (mainline_moves game) (game_board game) 0
              ltac:(lia)) as (Hlen & Hsort & _).
  change (Z.to_nat (10 - 0)) with 10%nat in Hlen.
  fold (extract_positions game) in Hlen, Hsort.
  split; [exact Hlen|]. split; [exact Hsort|].
  intros Hshort. apply length_zero_iff_nil. lia.
Qed.

Lemma material_count_swap (b : Board) (sqs : list Square) :
  forall acc : Z * Z,
    foldl (add_material (swap_colors b)) (acc.2, acc.1) sqs
    = ((foldl (add_material b) acc sqs).2, (foldl (add_material b) acc sqs).1).
Proof.
  induction sqs as [|sq rest IH]; intros acc; [reflexivity|].
  cbn [foldl]. rewrite <- IH. f_equal.
  unfold add_material, piece_at, swap_colors. cbn [cur with_pieces pieces_map].
  rewrite lookup_fmap.
  destruct (pieces_map (cur b) !! sq) as [[t c]|]; [|reflexivity].
  destruct c; reflexivity.
Qed.

(** X16.  [_evaluate_position] is antisymmetric in the colours:
    exchanging the colours of all pieces exchanges the two material
    counts and negates the evaluation. *)
Theorem evaluate_position_swap (b : Board) :
  material_count (swap_colors b) SQUARES
  = ((material_count b SQUARES).2, (material_count b SQUARES).1)
  /\ _evaluate_position (swap_colors b) = Qopp (_evaluate_position b).
Proof.
  assert (Hm : material_count (swap_colors b) SQUARES
               = ((material_count b SQUARES).2, (material_count b SQUARES).1))
    by apply (material_count_swap b SQUARES (0, 0)).
  split; [exact Hm|].
  unfold _evaluate_position. rewrite Hm. cbn [fst snd]. unfold Qopp. cbn [Qnum Qden].
  f_equal. lia.
Qed.

Lemma read_file_spec (games : list Game) (max_games : Z) :
  forall st : Counters,
    let n := Z.to_nat (max_games - processed_games st) in
    let st' := read_file games max_games st in
    all_positions st'
      = all_positions st ++ concat (extract_positions <$> take n (kept games))
    /\ processed_games st'
       = processed_games st + Z.of_nat (length (take n (kept games)))
    /\ skipped_games st <= skipped_games st'
    /\ skipped_games st' - skipped_games st
       <= Z.of_nat (length games) - Z.of_nat (length (kept games)).
Proof.
  induction games as [|g rest IH]; intros st n st'.
  - unfold st', kept. cbn. rewrite take_nil, app_nil_r. cbn. repeat split; lia.
  - unfold st'. cbn [read_file]. unfold kept. rewrite filter_cons. fold (kept rest).
    destruct (processed_games st <? max_games) eqn:Hlt.
    + apply Z.ltb_lt in Hlt.
      destruct (parse_game g) as [info|] eqn:Hg.
      * rewrite decide_True by (by eexists).
        specialize (IH (mkCounters (processed_games st + 1) (skipped_games st)
                          (all_positions st ++ extract_positions g))).
        cbn [processed_games skipped_games all_positions] in IH.
        destruct IH as (Ha & Hp & Hs1 & Hs2).
        assert (Hn : n = S (Z.to_nat (max_games - (processed_games st + 1))))
          by (unfold n; lia).
        rewrite Hn. cbn [take fmap list_fmap concat length].
        rewrite Ha, Hp, <- app_assoc. cbn [length] in *. repeat split; lia.
      * rewrite decide_False by (intros [? ?]; discriminate).
        specialize (IH (mkCounters (processed_games st) (skipped_games st + 1)
                          (all_positions st))).
        cbn [processed_games skipped_games all_positions] in IH.
        destruct IH as (Ha & Hp & Hs1 & Hs2).
        fold n in Ha, Hp. cbn [length]. repeat split; [exact Ha | exact Hp | lia | lia].
    + apply Z.ltb_ge in Hlt. assert (Hn : n = 0%nat) by (unfold n; lia).
      rewrite Hn, take_0. cbn. rewrite app_nil_r.
      pose proof (length_filter (fun g => is_Some (parse_game g)) (g :: rest)) as Hf.
      rewrite filter_cons in Hf. fold (kept rest) in Hf. cbn [length] in Hf.
      repeat split; lia.
Qed.

Lemma read_files_spec (pgn_files : list (list Game)) (max_games : Z) :
  forall st : Counters,
    let n := Z.to_nat (max_games - processed_games st) in
    let st' := read_files pgn_files max_games st in
    all_positions st'
      = all_positions st
        ++ concat (extract_positions <$> take n (kept (concat pgn_files)))
    /\ processed_games st'
       = processed_games st
         + Z.of_nat (length (take n (kept (concat pgn_files))))
    /\ skipped_games st <= skipped_games st'
    /\ skipped_games st' - skipped_games st
       <= Z.of_nat (length (concat pgn_files))
          - Z.of_nat (length (kept (concat pgn_files))).
Proof.
  induction pgn_files as [|f rest IH]; intros st n st'.
  - unfold st', kept. cbn. rewrite take_nil, app_nil_r. cbn. repeat split; lia.
  - unfold st'. cbn [read_files concat].
    destruct (read_file_spec f max_games st) as (Ha & Hp & Hs1 & Hs2).
    fold n in Ha, Hp. cbn zeta in Ha, Hp, Hs1, Hs2.
    set (st1 := read_file f max_games st) in *.
    unfold kept. rewrite filter_app. fold (kept f). fold (kept (concat rest)).
    rewrite !length_app.
    pose proof (length_filter (fun g => is_Some (parse_game g)) (concat rest)) as Hfr.
    fold (kept (concat rest)) in Hfr.
    rewrite length_take in Hp.
    destruct (processed_games st1 >=? max_games) eqn:Hge.
    + rewrite Z.geb_leb in Hge. apply Z.leb_le in Hge.
      rewrite take_app_le by lia.
      rewrite length_take. repeat split; [exact Ha | lia | lia | lia].
    + rewrite Z.geb_leb in Hge. apply Z.leb_gt in Hge.
      destruct (IH st1) as (Ha2 & Hp2 & Hs3 & Hs4). cbn zeta in *.
      assert (Hshort : (length (kept f) < n)%nat) by lia.
      rewrite take_app_ge by lia.
      assert (Hn2 : Z.to_nat (max_games - processed_games st1)
                    = (n - length (kept f))%nat) by lia.
      rewrite Hn2 in Ha2, Hp2.
      rewrite take_ge in Ha by lia.
      rewrite Ha2, Hp2, Ha, fmap_app, concat_app, <- app_assoc, length_app.
      rewrite length_take in *.
      repeat split; lia.
Qed.

(** X17.  [process_files] raises FileNotFoundError exactly when no file
    is found.  Otherwise the rows it collects are the rows of the first
    [max_games] games that [parse_game] keeps, taken in order through
    the files; [processed_games] counts those games and never exceeds a
    non-negative [max_games], skipped games do not count towards it,
    [total_positions] is the number of rows, and [pgn_files_processed] is
    the number of files found, opened or not. *)
Theorem process_files_collects (pgn_files : list (list Game)) (max_games : Z) :
  (process_files pgn_files max_games = None <-> pgn_files = [])
  /\ forall stats rows,
       process_files pgn_files max_games = Some (stats, rows) ->
       let chosen := take (Z.to_nat max_games) (kept (concat pgn_files)) in
       rows = concat (extract_positions <$> chosen)
       /\ st_processed_games stats = Z.of_nat (length chosen)
       /\ (0 <= max_games -> st_processed_games stats <= max_games)
       /\ 0 <= st_skipped_games stats
       /\ st_processed_games stats + st_skipped_games stats
          <= Z.of_nat (length (concat pgn_files))
       /\ st_total_positions stats = Z.of_nat (length rows)
       /\ st_pgn_files_processed stats = Z.of_nat (length pgn_files).
Proof.
  split.
  - destruct pgn_files; cbn; split; congruence.
  - intros stats rows Hrun chosen.
    destruct (read_files_spec pgn_files max_games (mkCounters 0 0 []))
      as (Ha & Hp & Hs1 & Hs2).
    cbn [processed_games skipped_games all_positions app] in *.
    rewrite Z.sub_0_r in Ha, Hp. fold chosen in Ha, Hp.
    assert (Hres : stats = mkStats
                     (processed_games (read_files pgn_files max_games (mkCounters 0 0 [])))
                     (skipped_games (read_files pgn_files max_games (mkCounters 0 0 [])))
                     (Z.of_nat (length (all_positions
                        (read_files pgn_files max_games (mkCounters 0 0 [])))))
                     (Z.of_nat (length pgn_files))
                   /\ rows = all_positions
                        (read_files pgn_files max_games (mkCounters 0 0 []))).
    { destruct pgn_files; [discriminate|]. cbn [process_files] in Hrun.
      injection Hrun as <- <-. split; reflexivity. }
    destruct Hres as [-> ->]. cbn [st_processed_games st_skipped_games
                                  st_total_positions st_pgn_files_processed].
    pose proof (length_take_le (kept (concat pgn_files)) (Z.to_nat max_games)) as Hle1.
    assert (Hle2 : (length chosen <= length (kept (concat pgn_files)))%nat).
    { unfold chosen. rewrite length_take. lia. }
    assert (Hle3 : (length chosen <= Z.to_nat max_games)%nat).
    { unfold chosen. rewrite length_take. lia. }
    repeat split; try assumption; try lia.
Qed.

End Dataset.

Section Comparison_and_display.
Context `{RulesLibrary} `{Oracle}.

Lemma step_thread_last_cmp (s : ChessPredictor) (l : list Thread)
    (um : string) (pc : CmpPc) :
  threads s = l ++ [comparison_worker um pc] ->
  step_thread (length l) s =
    set_threads (cmp_step s um pc).1
      (l ++ [comparison_worker um (cmp_step s um pc).2]).
Proof.
  intros Hl. unfold step_thread.
  rewrite Hl, list_lookup_middle by reflexivity. cbn zeta.
  assert (Hsame : threads (cmp_step s um pc).1 = threads s).
  { destruct pc as [| |tm|]; cbn [cmp_step].
    - destruct (pop (board s)); [|reflexivity].
      destruct (stockfish_ai s); reflexivity.
    - destruct (stockfish_ai s) as [e|]; [|reflexivity].
      destruct (get_top_moves e 5); reflexivity.
    - reflexivity.
    - reflexivity. }
  rewrite Hsame, Hl. f_equal.
  rewrite insert_app_r_alt by lia. rewrite Nat.sub_diag. reflexivity.
Qed.

(** X18.  After a legal move with the engine present, the comparison
    thread that [make_move] starts, run to its end with nothing in
    between, stores the comparison of the user's move with the engine's
    five top moves for the position before the move, and leaves board and
    histories as [make_move] left them. *)
Theorem comparison_after_move (s : ChessPredictor) (m : Move) (e : Stockfish)
    (tm : list TopMove) :
  stockfish_ai s = Some e ->
  m ∈ legal_moves (cur (board s)) ->
  get_top_moves (set_fen_position e (fen (cur (board s)))) 5 = Some tm ->
  let i := length (threads s) in
  let s' := step_thread i (step_thread i (step_thread i (make_move s m).2)) in
  stockfish_comparison s' = Some (compare_moves tm (uci m))
  /\ store s' = store (make_move s m).2.
Proof.
  intros Hsf Hin Htm i s'. unfold s', i. clear s' i.
  set (l := threads s).
  assert (Hmm : (make_move s m).2
                = spawn (set_board
                           (set_position_history
                              (set_move_history s (move_history s ++ [m]))
                              (position_history s ++ [fen (cur (board s))]))
                           (push (board s) m))
                        (comparison_worker (uci m) CmpStart)).
  { unfold make_move, is_legal. rewrite bool_decide_eq_true_2 by exact Hin.
    cbn [snd]. cbn [stockfish_ai set_board set_position_history set_move_history].
    unfold get_stockfish_comparison.
    cbn [stockfish_ai set_board set_position_history set_move_history].
    rewrite Hsf. reflexivity. }
  rewrite Hmm.
  match goal with |- context [spawn ?x ?t] => set (s1 := spawn x t) end.
  assert (Hs1 : threads s1 = l ++ [comparison_worker (uci m) CmpStart])
    by reflexivity.
  rewrite (step_thread_last_cmp s1 l (uci m) CmpStart Hs1).
  assert (Hstep1 : cmp_step s1 (uci m) CmpStart
                   = (set_stockfish_ai s1
                        (Some (set_fen_position e (fen (cur (board s))))),
                      CmpQuery)).
  { unfold cmp_step, s1, spawn.
    cbn [board stockfish_ai set_threads set_board set_position_history
         set_move_history].
    rewrite pop_push, Hsf. reflexivity. }
  rewrite Hstep1. cbn [fst snd].
  match goal with
  | |- context [step_thread _ (step_thread _ ?x)] => set (s2 := x)
  end.
  assert (Hs2 : threads s2 = l ++ [comparison_worker (uci m) CmpQuery])
    by reflexivity.
  rewrite (step_thread_last_cmp s2 l (uci m) CmpQuery Hs2).
  assert (Hstep2 : cmp_step s2 (uci m) CmpQuery = (s2, CmpGot tm)).
  { unfold cmp_step, s2.
    cbn [stockfish_ai set_threads set_stockfish_ai]. rewrite Htm. reflexivity. }
  rewrite Hstep2. cbn [fst snd].
  rewrite (step_thread_last_cmp
             (set_threads s2 (l ++ [comparison_worker (uci m) (CmpGot tm)]))
             l (uci m) (CmpGot tm)) by reflexivity.
  split; reflexivity.
Qed.

(** X19.  The dots of the valid moves are drawn at the centres of exactly
    the highlighted squares when a square other than a1 is selected
    outside Setup mode; when the selected square is a1 (square 0, which
    the test takes for "nothing selected") no dot is drawn, whatever the
    valid moves are. *)
Theorem valid_move_dots_spec (s : ChessPredictor) (sq : Square) :
  selected_piece s = Some sq ->
  String.eqb (current_mode s) SETUP_MODE = false ->
  (sq = 0 -> valid_move_dots s = ∅)
  /\ (sq <> 0 ->
      forall c, c ∈ valid_move_dots s <->
                exists t, t ∈ valid_moves s /\ c = square_center t).
Proof.
  intros Hsel Hmode. unfold valid_move_dots. rewrite Hsel, Hmode. split.
  - intros ->. reflexivity.
  - intros Hne c. destruct (Z.eqb_spec sq 0) as [?|_]; [contradiction|].
    cbn [negb andb]. rewrite elem_of_map. split.
    + intros (t & -> & Ht). by exists t.
    + intros (t & Ht & ->). by exists t.
Qed.


End Comparison_and_display.

(** * The program on concrete inputs *)

Module Examples.
Import Opening Scenario.

(** The starting position in Analysis mode, engine present. *)
Lemma make_move_legal_witness :
  (@make_move opening_rules analysis_start (chess_Move 12 28)).1 = true
  /\ move_history (@make_move opening_rules analysis_start (chess_Move 12 28)).2
     = [chess_Move 12 28]
  /\ board (@make_move opening_rules analysis_start (chess_Move 12 28)).2
     = @push opening_rules chess_Board (chess_Move 12 28).
Proof.
  set (s := analysis_start).
  assert (Hmode : current_mode s = ANALYSIS_MODE \/ current_mode s = PLAY_MODE)
    by (left; reflexivity).
  assert (Hin : chess_Move 12 28 ∈ @legal_moves opening_rules (cur (board s)))
    by (apply (bool_decide_unpack _); vm_compute; exact I).
  destruct (@make_move_legal opening_rules s 12 28 Hmode Hin)
    as (_ & H1 & H2 & _ & _ & H3 & _).
  split; [exact H1 | split; [exact H2 | exact H3]].
Defined.

(** The pawn on e2 cannot go to e5. *)
Lemma make_move_illegal_witness :
  @make_move opening_rules analysis_start (chess_Move 12 36)
  = (false, analysis_start)
  /\ @drop_piece opening_rules analysis_start 12 36 = analysis_start.
Proof.
  set (s := analysis_start).
  assert (Hout : chess_Move 12 36 ∉ @legal_moves opening_rules (cur (board s)))
    by (apply (bool_decide_unpack _); vm_compute; exact I).
  destruct (@make_move_illegal opening_rules s 12 36 Hout) as [H1 H2].
  split; [exact H1|].
  destruct (H2 (or_introl eq_refl)) as (_ & H3 & _). exact H3.
Defined.


(** A press on the empty square e4, released on e2. *)
Lemma setup_empty_source_witness :
  @mouse_button_down opening_rules setup_start (400, 400) = setup_start
  /\ @mouse_button_up opening_rules
       (@mouse_button_down opening_rules setup_start (400, 400)) (400, 560)
     = Some setup_start.
Proof.
  destruct (@setup_empty_source opening_rules setup_start (400, 400) (400, 560)
              28 eq_refl eq_refl eq_refl eq_refl) as (H1 & H2 & _).
  split; assumption.
Defined.

(** C4, the claim as written fails: on the starting position in Setup
    mode e4 is empty, yet [is_valid_move] from e4 to e2 answers true in
    both classes, and the placement that follows such an answer takes
    the pawn off e2. *)
Lemma empty_source_not_refused :
  current_mode setup_start = SETUP_MODE
  /\ piece_at (board setup_start) 28 = None
  /\ @is_valid_move opening_rules setup_start 28 12 = true
  /\ piece_at (board setup_start) 12 = Some (mkPiece PAWN WHITE)
  /\ piece_at (board (@drop_piece opening_rules setup_start 28 12)) 12 = None
  /\ board (@drop_piece opening_rules setup_start 28 12) <> board setup_start
  /\ @ChessGUI.is_valid_move opening_rules ChessGUI.init 28 12 = true
  /\ piece_at (ChessGUI.board (@ChessGUI.drop_piece opening_rules
                                 ChessGUI.init 28 12)) 12 = None.
Proof.
  repeat split; try reflexivity.
  intros Heq.
  assert (Hp : piece_at (board (@drop_piece opening_rules setup_start 28 12)) 12
               = piece_at (board setup_start) 12) by (rewrite Heq; reflexivity).
  vm_compute in Hp. discriminate Hp.
Qed.



(** C6, the program against the claim.  After [superseded_request] the
    first worker holds an answer computed for the position after 1.e4,
    while the board, and the position the second worker has set in the
    engine, is the one after 1.d4.  When the first worker is scheduled
    it publishes its move all the same and, in Play mode against the
    engine, plays it on the board. *)
Lemma stale_suggestion_applied :
  exists s1 s2,
    @run_events opening_rules scripted_oracle superseded_request
      (init (Some engine)) = Some s1
    /\ threads s1 !! 1%nat
       = Some (ai_worker (AiGot [mkTopMove "e7e5" (Some (-20))]))
    /\ @get_top_moves scripted_oracle
         (mkStockfish 8 15 (opening_fen after_e2e4)) 12
       = Some [mkTopMove "e7e5" (Some (-20))]
    /\ threads s1 !! 3%nat = Some (ai_worker AiQuery)
    /\ opening_fen (cur (board s1)) = after_d2d4_fen
    /\ sf_fen_position <$> stockfish_ai s1 = Some after_d2d4_fen
    /\ opening_fen after_e2e4 <> after_d2d4_fen
    /\ last_ai_move s1 = None
    /\ move_history s1 = [chess_Move 11 27]
    /\ @handle opening_rules scripted_oracle s1 (Schedule 1) = Some s2
    /\ last_ai_move s2 = Some "e7e5"
    /\ ai_suggested_square s2 = Some 36
    /\ move_history s2 = [chess_Move 11 27; chess_Move 52 36]
    /\ opening_fen (cur (board s2)) = after_d2d4_e7e5_fen.
Proof.
  do 2 eexists.
  split; [vm_compute; reflexivity|].
  repeat split; try (vm_compute; reflexivity).
  vm_compute. discriminate.
Qed.


Lemma evaluate_board_material_sum_witness :
  @evaluate_board opening_rules chess_Board = total_material chess_Board
  /\ @evaluate_board opening_rules chess_Board = 7800.
Proof.
  destruct (@evaluate_board_material_sum opening_rules chess_Board
              eq_refl eq_refl eq_refl) as [H1 H2].
  split; [exact H1 | exact (H2 eq_refl)].
Defined.

End Examples.

Module More_examples.
Import Opening Scenario DatasetProcessor.

(** The pixel (410, 405) lies in the rectangle of row 4, column 4 (e4). *)
Lemma clicked_square_is_drawn_square_witness :
  get_square_from_pos (410, 405) = Some 28.
Proof.
  apply (clicked_square_is_drawn_square 4 4 (410, 405)); [lia | lia | reflexivity].
Defined.

Lemma get_square_from_pos_sound_witness :
  0 <= 28 <= 63 /\ get_square_from_pos (square_center 28) = Some 28.
Proof.
  destruct (get_square_from_pos_sound (410, 405) 28 eq_refl) as (H1 & _ & H2).
  split; [exact H1 | exact H2].
Defined.

(** A point in the Reset button. *)
Lemma button_at_unambiguous_witness :
  button_at (830, 280) = Some reset_position
  /\ get_square_from_pos (830, 280) = None.
Proof.
  assert (Hb : (reset_position, mkRect (CONTROL_PANEL_X + 120) 270 100 25)
               ∈ buttons)
    by (unfold buttons;
        repeat first [apply list_elem_of_here | apply list_elem_of_further]).
  destruct (button_at_unambiguous (830, 280) reset_position _ Hb eq_refl)
    as (H1 & _ & H2).
  split; [exact H1 | exact H2].
Defined.

Lemma castling_checkbox_effect_witness :
  store (click_button setup_start white_kingside) = store setup_start
  /\ click_button (click_button setup_start white_kingside) white_kingside
     = setup_start.
Proof.
  assert (Hb : white_kingside
               ∈ [white_kingside; white_queenside; black_kingside; black_queenside])
    by (apply (bool_decide_unpack _); vm_compute; exact I).
  destruct (castling_checkbox_effect setup_start white_kingside Hb)
    as (H1 & _ & _ & H2).
  split; [exact H1 | exact H2].
Defined.

Lemma clear_and_reset_effect_witness :
  move_history (click_button analysis_start clear_board) = []
  /\ ai_suggested_square (click_button analysis_start clear_board)
     = ai_suggested_square analysis_start.
Proof.
  destruct (clear_and_reset_effect analysis_start clear_board (or_introl eq_refl))
    as (_ & _ & H1 & _ & _ & _ & _ & H2 & _).
  split; [exact H1 | exact H2].
Defined.

(** The first worker of [superseded_request] before and after it
    publishes. *)
Lemma step_thread_frame_witness :
  ui (@step_thread opening_rules scripted_oracle 0 analysis_start)
  = ui analysis_start.
Proof.
  exact (proj1 (@step_thread_frame opening_rules scripted_oracle 0 analysis_start)).
Defined.


Lemma event_loop_never_raises_witness :
  is_Some (@run_events opening_rules scripted_oracle click_and_drag
             (init (Some engine))).
Proof.
  apply (@event_loop_never_raises opening_rules scripted_oracle
           click_and_drag false (init (Some engine))).
  - split; [discriminate | reflexivity].
  - reflexivity.
Defined.

(** Without the alternation the loop can raise: [triple_press] ends in the
    TypeError. *)
Lemma triple_press_raises :
  alternating false triple_press = false
  /\ @run_events opening_rules scripted_oracle triple_press (init None) = None.
Proof. split; vm_compute; reflexivity. Qed.


Lemma suggestion_is_tenth_or_last_witness :
  exists sel,
    last five_moves = Some sel
    /\ last_ai_move (@ai_publish opening_rules analysis_start five_moves)
       = Some (Move_ sel).
Proof.
  assert (Hne : five_moves <> []) by discriminate.
  destruct (@suggestion_is_tenth_or_last opening_rules analysis_start
              five_moves Hne) as (sel & H1 & H2 & _).
  exists sel. split; [exact H1 | exact H2].
Defined.

Lemma evaluate_board_sign_witness :
  0 <= @evaluate_board opening_rules chess_Board.
Proof.
  destruct (@evaluate_board_sign opening_rules chess_Board) as [_ Hlive].
  destruct (Hlive eq_refl) as [_ Hsign]. exact Hsign.
Defined.

Lemma parse_game_edges_witness :
  @parse_game decimal_int unrated_game = None
  /\ is_Some (@parse_game decimal_int bare_minute_game).
Proof.
  split.
  - apply (proj1 (@parse_game_edges decimal_int unrated_game)).
    left. reflexivity.
  - apply (proj2 (@parse_game_edges decimal_int bare_minute_game) 2500 2450);
      try reflexivity; lia.
Defined.

Lemma extract_positions_rows_witness :
  exists pd,
    pd ∈ @extract_positions opening_rules plain_san rapid_game
    /\ pd_move_number pd = 11
    /\ 10 <= pd_piece_count pd.
Proof.
  destruct (@extract_positions opening_rules plain_san rapid_game)
    as [|pd rest] eqn:Hrows; [vm_compute in Hrows; discriminate Hrows|].
  assert (Hin : pd ∈ pd :: rest) by apply list_elem_of_here.
  rewrite <- Hrows in Hin.
  destruct (@extract_positions_rows opening_rules plain_san rapid_game pd Hin)
    as (i & m & _ & _ & _ & _ & _ & _ & _ & _ & _ & Hsz).
  exists pd. split; [apply list_elem_of_here|]. split; [|exact Hsz].
  vm_compute in Hrows. injection Hrows as <- _. reflexivity.
Defined.

Lemma extract_positions_count_witness :
  @extract_positions opening_rules plain_san
    (mkGame rapid_headers chess_Board (take 10 knight_dance)) = [].
Proof.
  apply (@extract_positions_count opening_rules plain_san). cbn. lia.
Defined.

Lemma process_files_collects_witness :
  exists stats rows,
    @process_files opening_rules decimal_int plain_san
      [[unrated_game; rapid_game]; [blitz_game; rapid_game; rapid_game]] 2
    = Some (stats, rows)
    /\ st_processed_games stats <= 2
    /\ st_total_positions stats = Z.of_nat (length rows).
Proof.
  destruct (@process_files opening_rules decimal_int plain_san
              [[unrated_game; rapid_game]; [blitz_game; rapid_game; rapid_game]] 2)
    as [[stats rows]|] eqn:Hrun; [|vm_compute in Hrun; discriminate Hrun].
  exists stats, rows. split; [reflexivity|].
  destruct (proj2 (@process_files_collects opening_rules decimal_int plain_san
                     _ 2) stats rows Hrun) as (_ & _ & H1 & _ & _ & H2 & _).
  split; [apply H1; lia | exact H2].
Defined.

(** The pawn e2-e4 in Analysis mode, engine answering with the five
    moves. *)
Lemma comparison_after_move_witness :
  stockfish_comparison
    (@step_thread opening_rules scripted_oracle 0
       (@step_thread opening_rules scripted_oracle 0
          (@step_thread opening_rules scripted_oracle 0
             (@make_move opening_rules analysis_start (chess_Move 12 28)).2)))
  = Some (compare_moves five_moves "e2e4").
Proof.
  assert (Hin : chess_Move 12 28
                ∈ @legal_moves opening_rules (cur (board analysis_start)))
    by (apply (bool_decide_unpack _); vm_compute; exact I).
  exact (proj1 (@comparison_after_move opening_rules scripted_oracle
                  analysis_start (chess_Move 12 28) engine five_moves
                  eq_refl Hin eq_refl)).
Defined.

Lemma valid_move_dots_spec_witness :
  valid_moves a1_selected <> ∅ /\ valid_move_dots a1_selected = ∅.
Proof.
  split; [change (({[ 8 ]} : gset Z) <> ∅); apply non_empty_singleton_L|].
  apply (proj1 (valid_move_dots_spec a1_selected 0 eq_refl eq_refl)).
  reflexivity.
Defined.


End More_examples.
